(** * Platform 1 departures service: the normaliser, the fetcher, the
      refresh loop and the health endpoints

    A shallow embedding of [ptv_api_service.py] (the API variant) and of
    [scraper.py] (the scrape variant), with the properties of the
    specification stated over it.

    Conventions of the embedding:
    - a decoded JSON document is a [value]; a Python [dict] is an
      association list in insertion order with unique keys; a JSON number
      is an [int], or, when it is written with a fraction or an exponent, a
      [float] kept as the decimal numeral Python prints for it (NaN and the
      infinities are outside this model);
    - a string is a sequence of characters of code point below 256, of
      type [ascii];
    - an exception is a [Raise] result carrying the exception class;
    - the wall clock, the random generator and the ISO-8601 parser of the
      Python libraries form the environment [Env]; every reading of the
      clock and every random draw advances a counter of the [World];
    - log lines are left out, except where building the line can raise. *)

From Stdlib Require Import String Ascii List ZArith Lia Bool Arith.
From Stdlib Require Import DecimalString DecimalZ DecimalPos Strings.Byte.
From Stdlib Require Import Sorting.Sorted Sorting.Permutation.
Import ListNotations.
Local Open Scope list_scope.
Local Open Scope string_scope.
Set Warnings "-register-all".

(** ** Python values *)

Inductive value : Type :=
| VNone
| VBool (b : bool)
| VInt (z : Z)
| VStr (s : string)
| VList (l : list value)
| VDict (d : list (string * value))
| VFloat (x : Decimal.decimal).

Inductive exc : Type :=
| AttributeError
| TypeError
| ValueError
| KeyError
| OtherError (msg : string).

Inductive result (A : Type) : Type :=
| Ok (a : A)
| Raise (e : exc).
Arguments Ok {A} a.
Arguments Raise {A} e.

Definition is_ok {A} (r : result A) : bool :=
  match r with Ok _ => true | Raise _ => false end.

(** A numeral all of whose digits are zero. *)
Fixpoint all_zero (u : Decimal.uint) : bool :=
  match u with
  | Decimal.Nil => true
  | Decimal.D0 u' => all_zero u'
  | _ => false
  end.

(** The floats [0.0] and [-0.0]. *)
Definition float_is_zero (x : Decimal.decimal) : bool :=
  match x with
  | Decimal.Decimal i f | Decimal.DecimalExp i f _ =>
      all_zero (match i with Decimal.Pos u | Decimal.Neg u => u end) && all_zero f
  end.

(** [bool(v)]. *)
Definition truthy (v : value) : bool :=
  match v with
  | VNone => false
  | VBool b => b
  | VInt z => negb (Z.eqb z 0)
  | VStr s => negb (String.eqb s "")
  | VList l => match l with [] => false | _ => true end
  | VDict d => match d with [] => false | _ => true end
  | VFloat x => negb (float_is_zero x)
  end.

(** Lookup in a dict. *)
Fixpoint lookup (k : string) (d : list (string * value)) : option value :=
  match d with
  | [] => None
  | (k', v) :: rest => if String.eqb k k' then Some v else lookup k rest
  end.

Definition has_key (k : string) (d : list (string * value)) : bool :=
  match lookup k d with Some _ => true | None => false end.

(** [d[k] = v]: replaces the value in place, or appends a new key. *)
Fixpoint dict_set (d : list (string * value)) (k : string) (v : value)
  : list (string * value) :=
  match d with
  | [] => [(k, v)]
  | (k', v') :: rest =>
      if String.eqb k k' then (k', v) :: rest else (k', v') :: dict_set rest k v
  end.

(** [d.update(other)]. *)
Definition dict_update (d other : list (string * value)) : list (string * value) :=
  fold_left (fun acc kv => dict_set acc (fst kv) (snd kv)) other d.

(** ** Strings *)

(** [needle in hay] on two strings. *)
Fixpoint str_contains (needle hay : string) : bool :=
  if String.prefix needle hay then true
  else match hay with
       | EmptyString => false
       | String _ rest => str_contains needle rest
       end.

(** [s.replace('Z', '+00:00')]. *)
Fixpoint replace_Z (s : string) : string :=
  match s with
  | EmptyString => EmptyString
  | String c rest =>
      if Ascii.eqb c "Z"%char then "+00:00" ++ replace_Z rest
      else String c (replace_Z rest)
  end.

Fixpoint join (sep : string) (l : list string) : string :=
  match l with
  | [] => ""
  | [x] => x
  | x :: rest => x ++ sep ++ join sep rest
  end.

Definition hex_digit (n : nat) : ascii :=
  match n with
  | 0 => "0" | 1 => "1" | 2 => "2" | 3 => "3" | 4 => "4" | 5 => "5" | 6 => "6"
  | 7 => "7" | 8 => "8" | 9 => "9" | 10 => "a" | 11 => "b" | 12 => "c"
  | 13 => "d" | 14 => "e" | _ => "f"
  end%char.

(** One character of [repr] of a string delimited by [quote]; the
    characters that are not printable (the controls, the no-break space
    and the soft hyphen) are escaped. *)
Definition repr_char (quote c : ascii) : string :=
  let n := nat_of_ascii c in
  if Ascii.eqb c quote || Ascii.eqb c "\"%char then String "\"%char (String c "")
  else if Nat.eqb n 9 then "\t"
  else if Nat.eqb n 10 then "\n"
  else if Nat.eqb n 13 then "\r"
  else if Nat.ltb n 32 || Nat.eqb n 127 || (Nat.leb 128 n && Nat.leb n 160)
          || Nat.eqb n 173
       then String "\"%char (String "x"%char
              (String (hex_digit (n / 16)) (String (hex_digit (n mod 16)) "")))
  else String c "".

Fixpoint has_char (c : ascii) (s : string) : bool :=
  match s with
  | EmptyString => false
  | String c' rest => Ascii.eqb c c' || has_char c rest
  end.

Fixpoint repr_chars (quote : ascii) (s : string) : string :=
  match s with
  | EmptyString => EmptyString
  | String c rest => repr_char quote c ++ repr_chars quote rest
  end.

Definition single_quote : ascii := ascii_of_nat 39.
Definition double_quote : ascii := ascii_of_nat 34.

(** [repr(s)] of a string: single quotes, unless the string has a single
    quote and no double quote. *)
Definition repr_str (s : string) : string :=
  let quote := if has_char single_quote s && negb (has_char double_quote s)
               then double_quote else single_quote in
  String quote (repr_chars quote s ++ String quote "").

Definition str_of_Z (z : Z) : string := NilZero.string_of_int (Z.to_int z).

(** The exponent of the [repr] of a float: a sign and two digits at
    least. *)
Definition repr_exponent (e : Decimal.int) : string :=
  let digits u :=
    match u with
    | Decimal.Nil => "00"
    | Decimal.D0 Decimal.Nil | Decimal.D1 Decimal.Nil | Decimal.D2 Decimal.Nil
    | Decimal.D3 Decimal.Nil | Decimal.D4 Decimal.Nil | Decimal.D5 Decimal.Nil
    | Decimal.D6 Decimal.Nil | Decimal.D7 Decimal.Nil | Decimal.D8 Decimal.Nil
    | Decimal.D9 Decimal.Nil => "0" ++ NilEmpty.string_of_uint u
    | _ => NilEmpty.string_of_uint u
    end in
  match e with
  | Decimal.Pos u => "e+" ++ digits u
  | Decimal.Neg u => "e-" ++ digits u
  end.

(** [repr(x)] of a float: [1.0], [-0.5], [1e+16], [1.5e-07]. *)
Definition repr_float (x : Decimal.decimal) : string :=
  match x with
  | Decimal.Decimal i f =>
      NilZero.string_of_int i ++ "." ++ NilZero.string_of_uint f
  | Decimal.DecimalExp i f e =>
      NilZero.string_of_int i
        ++ match f with
           | Decimal.Nil => ""
           | _ => "." ++ NilEmpty.string_of_uint f
           end
        ++ repr_exponent e
  end.

(** [repr(v)]. *)
Fixpoint py_repr (v : value) : string :=
  match v with
  | VNone => "None"
  | VBool true => "True"
  | VBool false => "False"
  | VInt z => str_of_Z z
  | VStr s => repr_str s
  | VList l => "[" ++ join ", " (map py_repr l) ++ "]"
  | VDict d =>
      "{" ++ join ", " (map (fun kv => repr_str (fst kv) ++ ": " ++ py_repr (snd kv)) d)
          ++ "}"
  | VFloat x => repr_float x
  end.

(** [str(v)]. *)
Definition py_str (v : value) : string :=
  match v with
  | VStr s => s
  | _ => py_repr v
  end.

(** ** Operations that can raise *)

(** [d.get(k, default)] on a dict. *)
Definition dict_get (d : list (string * value)) (k : string) (default : value) : value :=
  match lookup k d with Some x => x | None => default end.

(** [v.get(k, default)]: only a dict has the method. *)
Definition py_get (v : value) (k : string) (default : value) : result value :=
  match v with
  | VDict d => Ok (dict_get d k default)
  | _ => Raise AttributeError
  end.

Definition is_str (k : string) (v : value) : bool :=
  match v with VStr s => String.eqb k s | _ => false end.

(** [k in v] for a string [k]. *)
Definition py_contains (k : string) (v : value) : result bool :=
  match v with
  | VDict d => Ok (has_key k d)
  | VList l => Ok (existsb (is_str k) l)
  | VStr s => Ok (str_contains k s)
  | _ => Raise TypeError
  end.

(** [v[k]] for a string [k]. *)
Definition py_subscript (v : value) (k : string) : result value :=
  match v with
  | VDict d => match lookup k d with Some x => Ok x | None => Raise KeyError end
  | _ => Raise TypeError
  end.

Fixpoint chars (s : string) : list value :=
  match s with
  | EmptyString => []
  | String c rest => VStr (String c "") :: chars rest
  end.

(** The items a [for] loop over [v] visits. *)
Definition py_iter (v : value) : result (list value) :=
  match v with
  | VList l => Ok l
  | VStr s => Ok (chars s)
  | VDict d => Ok (map (fun kv => VStr (fst kv)) d)
  | _ => Raise TypeError
  end.

(** [v.keys()]. *)
Definition py_keys (v : value) : result (list string) :=
  match v with
  | VDict d => Ok (map fst d)
  | _ => Raise AttributeError
  end.

(** [len(v)]. *)
Definition py_len (v : value) : result nat :=
  match v with
  | VList l => Ok (List.length l)
  | VStr s => Ok (String.length s)
  | VDict d => Ok (List.length d)
  | _ => Raise TypeError
  end.

(** ** Local time *)

(** A local date and time, as the number of minutes of wall-clock time
    since a fixed midnight; seconds play no part in [%H:%M]. *)
Definition datetime := nat.

Definition digit (n : nat) : ascii := ascii_of_nat (48 + n).

Definition two_digits (n : nat) : string :=
  String (digit (n / 10)) (String (digit (n mod 10)) "").

(** [t.strftime('%H:%M')]. *)
Definition strftime_HM (t : datetime) : string :=
  two_digits ((t / 60) mod 24) ++ ":" ++ two_digits (t mod 60).

(** [t + timedelta(minutes=m)]. *)
Definition add_minutes (t : datetime) (m : nat) : datetime := t + m.

Definition is_digit (c : ascii) : bool :=
  let n := nat_of_ascii c in Nat.leb 48 n && Nat.leb n 57.

(** A string of the shape [HH:MM]. *)
Definition is_HHMM (s : string) : bool :=
  match s with
  | String a (String b (String c (String d (String e EmptyString)))) =>
      is_digit a && is_digit b && Ascii.eqb c ":"%char && is_digit d && is_digit e
  | _ => false
  end.

(** ** The environment and the monad of the service *)

(** What the Python libraries supply: the readings of the Melbourne wall
    clock, the raw draws of the random generator, and
    [datetime.fromisoformat(s).astimezone(MELBOURNE_TZ)]. *)
Record Env : Type := {
  clock : nat -> datetime;
  dice : nat -> nat;
  fromisoformat_local : string -> result datetime
}.

Record World : Type := {
  ticks : nat;   (* readings of the clock so far *)
  draws : nat    (* random draws so far *)
}.

Definition dict := list (string * value).

Definition M (A : Type) : Type := World -> result A * World.

Definition ret {A} (a : A) : M A := fun w => (Ok a, w).

Definition bind {A B} (m : M A) (f : A -> M B) : M B :=
  fun w => match m w with
           | (Ok a, w') => f a w'
           | (Raise e, w') => (Raise e, w')
           end.

Definition lift {A} (r : result A) : M A := fun w => (r, w).

(** [try: m except Exception as e: h e]. *)
Definition try_catch {A} (m : M A) (h : exc -> M A) : M A :=
  fun w => match m w with
           | (Ok a, w') => (Ok a, w')
           | (Raise e, w') => h e w'
           end.

Declare Scope service_scope.
Delimit Scope service_scope with service.
Notation "x <- m ;; k" := (bind m (fun x => k))
  (at level 100, m at next level, right associativity) : service_scope.
Local Open Scope service_scope.

Fixpoint for_each {A B} (f : A -> M B) (l : list A) : M (list B) :=
  match l with
  | [] => ret []
  | x :: rest => y <- f x ;; ys <- for_each f rest ;; ret (y :: ys)
  end.

(** ** Sorting by [scheduled_time] *)

Fixpoint insert_by_key (k : string) (x : dict) (l : list (string * dict))
  : list (string * dict) :=
  match l with
  | [] => [(k, x)]
  | (k', y) :: rest =>
      if String.leb k k' then (k, x) :: (k', y) :: rest
      else (k', y) :: insert_by_key k x rest
  end.

(** The stable sort of keyed items by ascending key. *)
Fixpoint stable_sort (l : list (string * dict)) : list (string * dict) :=
  match l with
  | [] => []
  | (k, x) :: rest => insert_by_key k x (stable_sort rest)
  end.

(** [lambda x: x['scheduled_time']], for the string keys the service
    builds; a key of another type is reported as [TypeError]. *)
Definition sort_key (d : dict) : result string :=
  match lookup "scheduled_time" d with
  | Some (VStr s) => Ok s
  | Some _ => Raise TypeError
  | None => Raise KeyError
  end.

Fixpoint with_keys (l : list dict) : result (list (string * dict)) :=
  match l with
  | [] => Ok []
  | d :: rest =>
      match sort_key d with
      | Raise e => Raise e
      | Ok k => match with_keys rest with
                | Raise e => Raise e
                | Ok ks => Ok ((k, d) :: ks)
                end
      end
  end.

(** [sorted(l, key=lambda x: x['scheduled_time'])]. *)
Definition sort_by_scheduled_time (l : list dict) : result (list dict) :=
  match with_keys l with
  | Raise e => Raise e
  | Ok ks => Ok (map snd (stable_sort ks))
  end.

(** ** The cache *)

(** The global [cache] dict of both programs. *)
Record Cache : Type := {
  departures : list dict;
  last_updated : option string;
  updating : bool
}.

Definition initial_cache : Cache :=
  {| departures := []; last_updated := None; updating := false |}.

Definition set_updating (c : Cache) (b : bool) : Cache :=
  {| departures := departures c; last_updated := last_updated c; updating := b |}.

Definition set_departures (c : Cache) (l : list dict) : Cache :=
  {| departures := l; last_updated := last_updated c; updating := updating c |}.

Definition set_last_updated (c : Cache) (t : string) : Cache :=
  {| departures := departures c; last_updated := Some t; updating := updating c |}.

(** One pass of the body of [while True] in [update_cache]: the cache after
    each assignment, in order, and the seconds slept at the end. *)
Record Cycle : Type := {
  writes : list Cache;
  slept : nat
}.

Definition final_cache (c : Cache) (y : Cycle) : Cache := last (writes y) c.

(** [GET /api/departures]: the status and the JSON body, read from the
    cache alone. *)
Definition get_departures (c : Cache) : nat * dict :=
  (200,
   [ ("departures", VList (map VDict (departures c)));
     ("lastUpdated", match last_updated c with Some t => VStr t | None => VNone end);
     ("updating", VBool (updating c)) ]).

(** The outcome of the calls to the upstream of a health probe:
    [requests.get], [raise_for_status] and [response.json()]. *)
Inductive probe : Type :=
| Reachable (body : value)
| Unreachable (error : string).   (* [str(e)] of the exception raised *)

(** ** The API variant: [ptv_api_service.py] *)

Module PtvApiService.

(** *** The signed requests *)

Definition PTV_BASE_URL : string := "https://timetableapi.ptv.vic.gov.au".

(** [s.upper()], on the letters of ASCII. *)
Definition upper_char (c : ascii) : ascii :=
  let n := nat_of_ascii c in
  if Nat.leb 97 n && Nat.leb n 122 then ascii_of_nat (n - 32) else c.

Fixpoint upper (s : string) : string :=
  match s with
  | EmptyString => EmptyString
  | String c rest => String (upper_char c) (upper rest)
  end.

(** [digest.hex()]: two lowercase hexadecimal digits per byte. *)
Fixpoint hexdigest (digest : list byte) : string :=
  match digest with
  | [] => EmptyString
  | b :: rest =>
      let n := Byte.to_nat b in
      String (hex_digit (n / 16)) (String (hex_digit (n mod 16)) (hexdigest rest))
  end.

Section Signing.

(** The credentials of the environment, and
    [hmac.new(key, msg, sha1).digest()]. *)
Variables DEV_ID API_KEY : string.
Variable hmac_sha1 : string -> string -> list byte.

Definition generate_signature (request_path : string) : string :=
  let request_path :=
    request_path ++ (if str_contains "?" request_path then "&" else "?") in
  let raw := request_path ++ "devid=" ++ DEV_ID in
  let hashed := hmac_sha1 API_KEY raw in
  upper (hexdigest hashed).

Definition get_ptv_url (endpoint : string) : string :=
  let request_path := endpoint in
  let request_path :=
    request_path ++ (if str_contains "?" request_path then "&" else "?") in
  let raw := request_path ++ "devid=" ++ DEV_ID in
  let signature := generate_signature endpoint in
  PTV_BASE_URL ++ raw ++ "&signature=" ++ signature.

(** The endpoint [fetch_departures_from_ptv] asks for, at the stop
    [RIVERSDALE_STOP_ID], and the endpoint of the health probe. *)
Definition departures_endpoint (RIVERSDALE_STOP_ID : Z) : string :=
  "/v3/departures/route_type/" ++ str_of_Z 0 ++ "/stop/"
    ++ str_of_Z RIVERSDALE_STOP_ID ++ "?expand=All&max_results=100".

Definition version_endpoint : string := "/v3/version".

End Signing.

Section Service.

Variable E : Env.

(** [get_melbourne_time()]. *)
Definition get_melbourne_time : M datetime :=
  fun w => (Ok (clock E (ticks w)), {| ticks := S (ticks w); draws := draws w |}).

(** [random.randint(15, 120)]. *)
Definition randint_15_120 : M nat :=
  fun w => (Ok (15 + dice E (draws w) mod 106),
            {| ticks := ticks w; draws := S (draws w) |}).

(** [datetime.fromisoformat(v.replace('Z', '+00:00')).astimezone(MELBOURNE_TZ)]. *)
Definition to_local (v : value) : result datetime :=
  match v with
  | VStr s => fromisoformat_local E (replace_Z s)
  | _ => Raise AttributeError
  end.

(** [m.get(k, {}) if m else {}]. *)
Definition lookup_info (m : value) (k : string) : result value :=
  if truthy m then py_get m k (VDict []) else Ok (VDict []).

(** [info and k in info]. *)
Definition has_field (info : value) (k : string) : result bool :=
  if truthy info then py_contains k info else Ok false.

(** The three-tier choice of a display name. *)
Definition resolve_destination (run_info direction_info : value)
  (direction_id : string) : result value :=
  match has_field run_info "destination_name" with
  | Raise e => Raise e
  | Ok true => py_get run_info "destination_name" VNone
  | Ok false =>
      match has_field direction_info "direction_name" with
      | Raise e => Raise e
      | Ok true => py_get direction_info "direction_name" VNone
      | Ok false =>
          Ok (VStr (if String.eqb direction_id "1" then "Camberwell" else "Unknown"))
      end
  end.

Definition resolve_name (info : value) (field id fallback : string) : result value :=
  match has_field info field with
  | Raise e => Raise e
  | Ok true => py_get info field VNone
  | Ok false => Ok (VStr (if String.eqb id "1" then fallback else "Unknown"))
  end.

Definition vehicle_of (run_info : value) : result value :=
  match has_field run_info "vehicle_descriptor" with
  | Raise e => Raise e
  | Ok true =>
      match py_subscript run_info "vehicle_descriptor" with
      | Raise e => Raise e
      | Ok vd => py_get vd "description" VNone
      end
  | Ok false => Ok VNone
  end.

(** The loop over [disruption_ids]. *)
Fixpoint collect_disruptions (disruptions : value) (ids : list value)
  : result (list value) :=
  match ids with
  | [] => Ok []
  | i :: rest =>
      let id_str := py_str i in
      match py_contains id_str disruptions with
      | Raise e => Raise e
      | Ok false => collect_disruptions disruptions rest
      | Ok true =>
          match py_subscript disruptions id_str with
          | Raise e => Raise e
          | Ok x =>
              match py_get x "title" (VStr "") with
              | Raise e => Raise e
              | Ok title =>
                  match py_get x "description" (VStr "") with
                  | Raise e => Raise e
                  | Ok description =>
                      match collect_disruptions disruptions rest with
                      | Raise e => Raise e
                      | Ok more =>
                          Ok (VDict [("title", title); ("description", description)]
                                :: more)
                      end
                  end
              end
          end
      end
  end.

Definition disruptions_of (departure disruptions : value) : result (list value) :=
  if truthy disruptions then
    match py_get departure "disruption_ids" VNone with
    | Raise e => Raise e
    | Ok ids =>
        if truthy ids then
          match py_iter ids with
          | Raise e => Raise e
          | Ok items => collect_disruptions disruptions items
          end
        else Ok []
    end
  else Ok [].

(** The guarded parse of [estimated_departure_utc]:
    on any failure [live_time] stays as it is. *)
Definition set_live_time (formatted : dict) (estimated_time_utc : value) : dict :=
  if truthy estimated_time_utc then
    match to_local estimated_time_utc with
    | Ok t => dict_set formatted "live_time" (VStr (strftime_HM t))
    | Raise _ => formatted
    end
  else formatted.

Definition parse_departure_data
  (departure routes directions runs disruptions : value) : M dict :=
  r <- lift (py_get departure "route_id" (VStr "")) ;;
  let route_id := py_str r in
  d <- lift (py_get departure "direction_id" (VStr "")) ;;
  let direction_id := py_str d in
  n <- lift (py_get departure "run_id" (VStr "")) ;;
  let run_id := py_str n in
  run_exists <- lift (if truthy runs then py_contains run_id runs else Ok false) ;;
  (* the debug line lists [runs.keys()] *)
  _ <- lift (if negb run_exists && truthy runs then py_keys runs else Ok []) ;;
  route_info <- lift (lookup_info routes route_id) ;;
  direction_info <- lift (lookup_info directions direction_id) ;;
  run_info <- lift (lookup_info runs run_id) ;;
  destination <- lift (resolve_destination run_info direction_info direction_id) ;;
  scheduled_time_utc <- lift (py_get departure "scheduled_departure_utc" VNone) ;;
  scheduled_time <-
    (if negb (truthy scheduled_time_utc) then get_melbourne_time
     else lift (to_local scheduled_time_utc)) ;;
  estimated_time_utc <- lift (py_get departure "estimated_departure_utc" VNone) ;;
  vehicle_info <- lift (vehicle_of run_info) ;;
  disruption_info <- lift (disruptions_of departure disruptions) ;;
  route_name <- lift (resolve_name route_info "route_name" route_id "Alamein") ;;
  direction_name <-
    lift (resolve_name direction_info "direction_name" direction_id "City") ;;
  platform <- lift (py_get departure "platform_number" (VStr "Unknown")) ;;
  at_platform <- lift (py_get departure "at_platform" (VBool false)) ;;
  let formatted_departure :=
    [ ("scheduled_time", VStr (strftime_HM scheduled_time));
      ("live_time", VNone);
      ("destination", destination);
      ("platform", platform);
      ("at_platform", at_platform);
      ("vehicle", vehicle_info);
      ("direction", direction_name);
      ("disruptions", VList disruption_info);
      ("route_name", route_name) ] in
  ret (set_live_time formatted_departure estimated_time_utc).

(** The basic record the fetcher builds from the fields of the raw record
    alone (the body of its inner [try], before the enhancement). *)
Definition basic_departure (departure : value) (platform : string) : M dict :=
  r <- lift (py_get departure "route_id" (VStr "")) ;;
  let route_id := py_str r in
  d <- lift (py_get departure "direction_id" (VStr "")) ;;
  let direction_id := py_str d in
  scheduled_time_utc <- lift (py_get departure "scheduled_departure_utc" VNone) ;;
  let destination := if String.eqb direction_id "1" then "Camberwell" else "Unknown" in
  scheduled_time <-
    (if negb (truthy scheduled_time_utc)
     then (now <- get_melbourne_time ;;
           minutes <- randint_15_120 ;;
           ret (add_minutes now minutes))
     else lift (to_local scheduled_time_utc)) ;;
  at_platform <- lift (py_get departure "at_platform" (VBool false)) ;;
  let formatted_departure :=
    [ ("scheduled_time", VStr (strftime_HM scheduled_time));
      ("live_time", VNone);
      ("destination", VStr destination);
      ("platform", VStr platform);
      ("at_platform", at_platform);
      ("vehicle", VNone);
      ("direction", VStr (if String.eqb direction_id "1" then "City" else "Unknown"));
      ("disruptions", VList []);
      ("route_name", VStr (if String.eqb route_id "1" then "Alamein" else "Unknown")) ] in
  estimated_time_utc <- lift (py_get departure "estimated_departure_utc" VNone) ;;
  ret (set_live_time formatted_departure estimated_time_utc).

(** What one pass of the loop body does with a raw record. *)
Inductive outcome : Type :=
| Skipped                              (* [continue]: another platform *)
| Dropped                              (* the outer [except]: [error_count += 1] *)
| Kept (d : dict) (enhanced : bool).   (* [departures.append(formatted_departure)] *)

(** The body of [for departure in raw_departures]. *)
Definition process_departure (routes directions runs disruptions departure : value)
  : M outcome :=
  p <- lift (py_get departure "platform_number" (VStr "")) ;;
  let platform := py_str p in
  if negb (String.eqb platform "1") then ret Skipped
  else
    try_catch
      (formatted_departure <- basic_departure departure platform ;;
       try_catch
         (enhanced_departure <-
            parse_departure_data departure routes directions runs disruptions ;;
          ret (Kept (dict_update formatted_departure enhanced_departure) true))
         (fun _ => ret (Kept formatted_departure false)))
      (fun _ => ret Dropped).

Fixpoint kept (outs : list outcome) : list dict :=
  match outs with
  | [] => []
  | Kept d _ :: rest => d :: kept rest
  | _ :: rest => kept rest
  end.

(** The counters of the loop, which feed its log lines. *)
Definition platform1_count (outs : list outcome) : nat :=
  List.length (filter (fun o => match o with Skipped => false | _ => true end) outs).
Definition error_count (outs : list outcome) : nat :=
  List.length (filter (fun o => match o with Dropped => true | _ => false end) outs).
Definition enhancement_errors (outs : list outcome) : nat :=
  List.length (filter (fun o => match o with Kept _ false => true | _ => false end) outs).

(** [fetch_departures_from_ptv()], from the outcome [response] of
    [requests.get(url)], [raise_for_status()] and [response.json()]. *)
Definition fetch_departures_from_ptv (response : result value) : M (list dict) :=
  try_catch
    (data <- lift response ;;
     if negb (truthy data) then ret []
     else
       _ <- lift (py_keys data) ;;
       routes <- lift (py_get data "routes" (VDict [])) ;;
       directions <- lift (py_get data "directions" (VDict [])) ;;
       runs <- lift (py_get data "runs" (VDict [])) ;;
       disruptions <- lift (py_get data "disruptions" (VDict [])) ;;
       raw_departures <- lift (py_get data "departures" (VList [])) ;;
       _ <- lift (py_len raw_departures) ;;
       items <- lift (py_iter raw_departures) ;;
       outs <- for_each (process_departure routes directions runs disruptions) items ;;
       lift (sort_by_scheduled_time (kept outs)))
    (fun _ => ret []).

(** [print_timetable(departures)] and [save_to_json(departures)], which
    write the log and a file of the debug directory. *)
Variable report : list dict -> M unit.

(** The body of [while True] in [update_cache], around a call [fetch] of
    the fetcher. *)
Definition update_cache_iteration (fetch : M (list dict)) (c : Cache) (w : World)
  : Cycle * World :=
  let c1 := set_updating c true in
  match fetch w with
  | (Ok fetched, w1) =>
      match fetched with
      | _ :: _ =>
          let c2 := set_departures c1 fetched in
          match get_melbourne_time w1 with
          | (Ok now, w2) =>
              let c3 := set_last_updated c2 (strftime_HM now) in
              match report fetched w2 with
              | (Ok _, w3) =>
                  ({| writes := [c1; c2; c3; set_updating c3 false]; slept := 300 |}, w3)
              | (Raise _, w3) =>
                  ({| writes := [c1; c2; c3; set_updating c3 false]; slept := 60 |}, w3)
              end
          | (Raise _, w2) =>
              ({| writes := [c1; c2; set_updating c2 false]; slept := 60 |}, w2)
          end
      | [] => ({| writes := [c1; set_updating c1 false]; slept := 300 |}, w1)
      end
  | (Raise _, w1) => ({| writes := [c1; set_updating c1 false]; slept := 60 |}, w1)
  end.

(** The first [n] passes of [update_cache]; [fetch i] is the call of the
    fetcher in pass [i].  The result lists the passes, oldest first. *)
Fixpoint update_cache (fetch : nat -> M (list dict)) (n : nat) (c : Cache) (w : World)
  : list Cycle * Cache * World :=
  match n with
  | 0 => ([], c, w)
  | S k =>
      match update_cache fetch k c w with
      | (cycles, c', w') =>
          match update_cache_iteration (fetch k) c' w' with
          | (y, w'') => ((cycles ++ [y])%list, final_cache c' y, w'')
          end
      end
  end.

End Service.

(** [GET /api/health]: the probe of [/v3/version] gave [p]. *)
Definition health_check (p : probe) : nat * dict :=
  match p with
  | Reachable body => (200, [("status", VStr "healthy"); ("ptv_status", body)])
  | Unreachable error => (500, [("status", VStr "unhealthy"); ("error", VStr error)])
  end.

End PtvApiService.

(** ** The scrape variant: [scraper.py] *)

Module Scraper.

(** A departure card of the page: the texts of the elements inside it
    that carry a given class name, in document order. *)
Definition card := string -> list string.

(** [card.find_element(By.CLASS_NAME, c).text]. *)
Definition find_element_text (k : card) (c : string) : result string :=
  match k c with
  | t :: _ => Ok t
  | [] => Raise (OtherError "NoSuchElementException")
  end.

Section Service.

Variable E : Env.

Definition get_melbourne_time : M datetime := PtvApiService.get_melbourne_time E.

Definition extract_departure_data (k : card) : M (option dict) :=
  scheduled_time <- lift (find_element_text k "departure-card__info__time__value") ;;
  title <- lift (find_element_text k "departure-card__title") ;;
  if str_contains "Alamein" title then ret None
  else
    let live_elements := k "DepartureTimeView__text" in
    let live_time := match live_elements with t :: _ => VStr t | [] => VNone end in
    now <- get_melbourne_time ;;
    ret (Some [ ("scheduled_time", VStr scheduled_time);
                ("live_time", live_time);
                ("destination", VStr title);
                ("scraped_at", VStr (strftime_HM now)) ]).

(** The loop over the cards: a card whose extraction raises is logged and
    passed over. *)
Fixpoint extract_all (cards : list card) : M (list dict) :=
  match cards with
  | [] => ret []
  | k :: rest =>
      departure <- try_catch (extract_departure_data k) (fun _ => ret None) ;;
      more <- extract_all rest ;;
      ret (match departure with Some d => d :: more | None => more end)
  end.

(** The outcome of [setup_driver()], of loading the page, of the wait for
    the first card and of [find_elements], at each attempt. *)
Variable browser : nat -> result (list card).

(** [print_timetable] and [save_to_json]. *)
Variable report : list dict -> M unit.

(** The attempts [attempt], [attempt + 1], ... of [scrape_departures], of
    which [remaining] are left. *)
Fixpoint scrape_attempts (attempt remaining : nat) : M (list dict) :=
  match remaining with
  | 0 => ret []
  | S k =>
      found <-
        try_catch
          (cards <- lift (browser attempt) ;;
           departures <- extract_all cards ;;
           match departures with
           | _ :: _ =>
               sorted_departures <- lift (sort_by_scheduled_time departures) ;;
               _ <- report sorted_departures ;;
               ret (Some sorted_departures)
           | [] => ret None
           end)
          (fun _ => ret None) ;;
      match found with
      | Some sorted_departures => ret sorted_departures
      | None => scrape_attempts (S attempt) k
      end
  end.

Definition max_retries : nat := 3.

Definition scrape_departures : M (list dict) := scrape_attempts 0 max_retries.

(** The body of [while True] in [update_cache]. *)
Definition update_cache_iteration (fetch : M (list dict)) (c : Cache) (w : World)
  : Cycle * World :=
  let c1 := set_updating c true in
  match fetch w with
  | (Ok fetched, w1) =>
      match fetched with
      | _ :: _ =>
          let c2 := set_departures c1 fetched in
          match get_melbourne_time w1 with
          | (Ok now, w2) =>
              let c3 := set_last_updated c2 (strftime_HM now) in
              ({| writes := [c1; c2; c3; set_updating c3 false]; slept := 300 |}, w2)
          | (Raise _, w2) =>
              ({| writes := [c1; c2; set_updating c2 false]; slept := 60 |}, w2)
          end
      | [] => ({| writes := [c1; set_updating c1 false]; slept := 300 |}, w1)
      end
  | (Raise _, w1) => ({| writes := [c1; set_updating c1 false]; slept := 60 |}, w1)
  end.

Fixpoint update_cache (fetch : nat -> M (list dict)) (n : nat) (c : Cache) (w : World)
  : list Cycle * Cache * World :=
  match n with
  | 0 => ([], c, w)
  | S k =>
      match update_cache fetch k c w with
      | (cycles, c', w') =>
          match update_cache_iteration (fetch k) c' w' with
          | (y, w'') => ((cycles ++ [y])%list, final_cache c' y, w'')
          end
      end
  end.

End Service.

(** [GET /api/health]: no call to the upstream is made. *)
Definition health_check : nat * dict := (200, [("status", VStr "healthy")]).

End Scraper.

(** ** A concrete environment for the examples

    The clock starts at 10:00 and advances a minute per reading; the parser
    accepts the timestamps [YYYY-MM-DDTHH:MM:SS+00:00] and shifts them by
    the summer-time offset of Melbourne, eleven hours. *)

Definition digit_value (c : ascii) : option nat :=
  if is_digit c then Some (nat_of_ascii c - 48) else None.

Definition sample_fromisoformat_local (s : string) : result datetime :=
  match s with
  | String _ (String _ (String _ (String _ (String "-" (String _ (String _
     (String "-" (String _ (String _ (String "T" (String h1 (String h2
     (String ":" (String m1 (String m2 (String ":" (String _ (String _
     "+00:00")))))))))))))))))) =>
      match digit_value h1, digit_value h2, digit_value m1, digit_value m2 with
      | Some a, Some b, Some c, Some d =>
          Ok ((10 * a + b) * 60 + (10 * c + d) + 11 * 60)
      | _, _, _, _ => Raise ValueError
      end
  | _ => Raise ValueError
  end.

Definition sample_env : Env :=
  {| clock := fun n => 600 + n;
     dice := fun n => 7 * n + 30;
     fromisoformat_local := sample_fromisoformat_local |}.

Definition start : World := {| ticks := 0; draws := 0 |}.

(** ** Predicates of the statements *)

Definition is_dict (v : value) : bool :=
  match v with VDict _ => true | _ => false end.

(** A mapping the normaliser can look an id up in: a dict, or no mapping
    at all (any falsy value). *)
Definition usable_mapping (m : value) : bool := is_dict m || negb (truthy m).

(** The info the normaliser reads in the mapping [m] for the id [k]. *)
Definition info_read (m : value) (k : string) : value :=
  match m with
  | VDict l => dict_get l k (VDict [])
  | _ => VDict []
  end.

(** An info whose names can be read: a dict, or nothing (a falsy value). *)
Definition readable_info (v : value) : bool := is_dict v || negb (truthy v).

(** A run info: readable, with a [vehicle_descriptor] that, when present,
    is a dict. *)
Definition run_entry (v : value) : bool :=
  match v with
  | VDict f =>
      match lookup "vehicle_descriptor" f with
      | Some vd => is_dict vd
      | None => true
      end
  | _ => negb (truthy v)
  end.

(** A timestamp field that is absent (or falsy), or that the parser accepts. *)
Definition timestamp_ok (E : Env) (v : value) : bool :=
  negb (truthy v) || is_ok (PtvApiService.to_local E v).

(** The disruptions the normaliser reads: none when the mapping or the ids
    are absent (or falsy); else the ids can be gone through, the mapping is
    a dict, and the info of each id that is a key is a dict. *)
Definition disruptions_ok (disruptions ids : value) : bool :=
  negb (truthy disruptions) || negb (truthy ids)
  || match disruptions, py_iter ids with
     | VDict l, Ok items =>
         forallb (fun i => match lookup (py_str i) l with
                           | Some info => is_dict info
                           | None => true
                           end) items
     | _, _ => false
     end.

(** The inputs of the normaliser in which what the normaliser reads has
    the type it is read at: the record is a dict; the mappings are dicts
    (or absent); the infos found under the ids of the record are dicts (or
    absent); the timestamp is absent or parses.  Nothing is asked of the
    entries of the mappings that the record does not name. *)
Definition well_typed (E : Env) (departure routes directions runs disruptions : value)
  : bool :=
  match departure with
  | VDict f =>
      timestamp_ok E (dict_get f "scheduled_departure_utc" VNone)
      && usable_mapping routes
      && usable_mapping directions
      && usable_mapping runs
      && readable_info (info_read routes (py_str (dict_get f "route_id" (VStr ""))))
      && readable_info
           (info_read directions (py_str (dict_get f "direction_id" (VStr ""))))
      && run_entry (info_read runs (py_str (dict_get f "run_id" (VStr ""))))
      && disruptions_ok disruptions (dict_get f "disruption_ids" VNone)
  | _ => false
  end.

(** The test of the fetcher on [platform_number]. *)
Definition passes_filter (departure : value) : bool :=
  match py_get departure "platform_number" (VStr "") with
  | Ok p => String.eqb (py_str p) "1"
  | Raise _ => false
  end.

(** The id a raw record carries under [k], as a string. *)
Definition id_of (departure : value) (k : string) : string :=
  match departure with
  | VDict f => py_str (dict_get f k (VStr ""))
  | _ => ""
  end.

(** The fields of an info. *)
Definition fields_of (info : value) : dict :=
  match info with VDict f => f | _ => [] end.

(** The metadata a lookup mapping holds for an id: none when the id
    misses. *)
Definition metadata (m : value) (k : string) : dict :=
  match m with
  | VDict l => match lookup k l with Some info => fields_of info | None => [] end
  | _ => []
  end.

(** A name, as the specification speaks of one: a string that is not
    empty.  A field that is absent, null or empty gives no name. *)
Definition name_of (v : option value) : option string :=
  match v with
  | Some (VStr (String c s)) => Some (String c s)
  | _ => None
  end.

(** The destination by the priority chain of the specification: the
    destination name of the run, else the name of the direction, else the
    city-bound name for direction 1, else Unknown. *)
Definition spec_destination (run_destination direction_name : option value)
  (direction_id : string) : value :=
  match name_of run_destination with
  | Some s => VStr s
  | None =>
      match name_of direction_name with
      | Some s => VStr s
      | None => if String.eqb direction_id "1" then VStr "Camberwell" else VStr "Unknown"
      end
  end.

(** The destination as the code chooses it, by the presence of the keys:
    the value under [destination_name] when the run has that key, else the
    value under [direction_name] when the direction has that key, else the
    fallback. *)
Definition destination_by_key (run_destination direction_name : option value)
  (direction_id : string) : value :=
  match run_destination with
  | Some v => v
  | None =>
      match direction_name with
      | Some v => v
      | None => if String.eqb direction_id "1" then VStr "Camberwell" else VStr "Unknown"
      end
  end.

(** The field the chain stops at holds a name: the [destination_name] of
    the run when the run has that key, else the [direction_name] of the
    direction when the direction has that key. *)
Definition chain_reads_a_name (run_destination direction_name : option value) : bool :=
  match run_destination with
  | Some v => match name_of (Some v) with Some _ => true | None => false end
  | None =>
      match direction_name with
      | Some v => match name_of (Some v) with Some _ => true | None => false end
      | None => true
      end
  end.




(** The [live_time] of a record whose [estimated_departure_utc] is [est]:
    null when there is no estimate or when it cannot be parsed. *)
Definition live_time_of (E : Env) (est : value) : value :=
  if truthy est then
    match PtvApiService.to_local E est with
    | Ok t => VStr (strftime_HM t)
    | Raise _ => VNone
    end
  else VNone.

(** The keys of a departure of the API variant. *)
Definition departure_keys : list string :=
  [ "scheduled_time"; "live_time"; "destination"; "platform"; "at_platform";
    "vehicle"; "direction"; "disruptions"; "route_name" ].


(** *** Sample inputs *)

Definition no_mapping : value := VDict [].


Definition record_unparseable_timestamp : value :=
  VDict [("platform_number", VStr "1"); ("direction_id", VStr "1");
         ("scheduled_departure_utc", VStr "tomorrow")].

Definition record_of_run_7 : value :=
  VDict [("platform_number", VInt 1); ("run_id", VInt 7); ("direction_id", VInt 1);
         ("scheduled_departure_utc", VStr "2024-01-01T00:00:00Z")].

Definition runs_null_vehicle : value :=
  VDict [("7", VDict [("destination_name", VStr "Flinders Street");
                      ("vehicle_descriptor", VNone)])].

Definition runs_with_vehicle : value :=
  VDict [("7", VDict [("destination_name", VStr "Flinders Street");
                      ("vehicle_descriptor", VDict [("description", VStr "6 Car Xtrapolis")])])].

(** The run 7 next to a run whose [vehicle_descriptor] is null. *)
Definition runs_with_a_broken_neighbour : value :=
  VDict [("7", VDict [("destination_name", VStr "Flinders Street");
                      ("vehicle_descriptor", VDict [("description", VStr "6 Car Xtrapolis")])]);
         ("8", VDict [("destination_name", VStr "Alamein");
                      ("vehicle_descriptor", VNone)])].

(** A run whose [destination_name] is null. *)
Definition runs_null_destination : value :=
  VDict [("7", VDict [("destination_name", VNone)])].

Definition directions_sample : value :=
  VDict [("1", VDict [("direction_name", VStr "City (Flinders Street)")])].

Definition record_city_bound : value :=
  VDict [("platform_number", VStr "1"); ("direction_id", VStr "1");
         ("scheduled_departure_utc", VStr "2024-01-01T00:00:00Z")].

Definition routes_sample : value :=
  VDict [("1", VDict [("route_name", VStr "Alamein")])].

Definition record_without_timestamp : value :=
  VDict [("platform_number", VStr "1"); ("direction_id", VStr "1")].

(** The times [now + j] for the jitters [j] of 15 to 120 minutes. *)
Definition jittered (now : datetime) : list string :=
  map (fun j => strftime_HM (add_minutes now j)) (seq 15 106).

(** A record whose platform is the string 1 or the integer 1. *)
Definition platform_is_1 (departure : value) : bool :=
  match departure with
  | VDict f =>
      match lookup "platform_number" f with
      | Some (VStr s) => String.eqb s "1"
      | Some (VInt z) => Z.eqb z 1
      | _ => false
      end
  | _ => false
  end.

(** How the loop of the fetcher treats a raw record. *)
Definition treated (E : Env) (departure : value) (o : PtvApiService.outcome) : Prop :=
  match o with
  | PtvApiService.Skipped => platform_is_1 departure = false
  | PtvApiService.Dropped =>
      platform_is_1 departure = true
      /\ timestamp_ok E (dict_get (fields_of departure) "scheduled_departure_utc" VNone)
         = false
  | PtvApiService.Kept d _ =>
      platform_is_1 departure = true
      /\ timestamp_ok E (dict_get (fields_of departure) "scheduled_departure_utc" VNone)
         = true
  end.

(** A record the fetcher hands out: of platform 1, with a timestamp that
    is absent or that the parser accepts. *)
Definition retained (E : Env) (departure : value) : bool :=
  platform_is_1 departure
  && timestamp_ok E (dict_get (fields_of departure) "scheduled_departure_utc" VNone).

(** A record whose platform is the float 1.0. *)
Definition record_float_platform : value :=
  VDict [("platform_number",
          VFloat (Decimal.Decimal (Decimal.Pos (Decimal.D1 Decimal.Nil))
                    (Decimal.D0 Decimal.Nil)));
         ("scheduled_departure_utc", VStr "2024-01-01T00:00:00Z")].

(** A reply with two records of platform 1, the second with a timestamp
    that cannot be parsed. *)
Definition reply_with_an_unparseable_timestamp : list (string * value) :=
  [("departures", VList [record_city_bound; record_unparseable_timestamp])].

Definition four_platforms : list value :=
  [ VDict [("platform_number", VStr "1"); ("run_id", VInt 1)];
    VDict [("platform_number", VStr "2"); ("run_id", VInt 2)];
    VDict [("platform_number", VInt 1); ("run_id", VInt 3)];
    VDict [("run_id", VInt 4)] ].

Definition leb_keys (a b : string) : Prop := String.leb a b = true.

(** A reply of the upstream with three departures of platform 1, at 08:15,
    07:05 and 07:50 local time. *)
Definition response_three_times : value :=
  VDict [("departures",
          VList [ VDict [("platform_number", VStr "1");
                         ("scheduled_departure_utc", VStr "2024-01-01T21:15:00Z")];
                  VDict [("platform_number", VStr "1");
                         ("scheduled_departure_utc", VStr "2024-01-01T20:05:00Z")];
                  VDict [("platform_number", VStr "1");
                         ("scheduled_departure_utc", VStr "2024-01-01T20:50:00Z")] ])].

Definition response_four_platforms : list (string * value) :=
  [("departures", VList four_platforms)].

(** What one pass of the refresh loop must do to the cache [c], given what
    the call of the fetcher gave: the flag is cleared at the end; after a
    non-empty result the list is replaced first, [last_updated] is set next,
    to the local time read after the fetch, and the flag is cleared last;
    after an empty result or an exception no write touches the list or
    [last_updated]. *)
Definition cycle_contract (E : Env) (fetched : result (list dict) * World)
  (c : Cache) (y : Cycle) : Prop :=
  updating (final_cache c y) = false
  /\ match fetched with
     | (Ok (d :: l), w1) =>
         let now := strftime_HM (clock E (ticks w1)) in
         writes y =
         [ {| departures := departures c; last_updated := last_updated c;
              updating := true |};
           {| departures := d :: l; last_updated := last_updated c;
              updating := true |};
           {| departures := d :: l; last_updated := Some now; updating := true |};
           {| departures := d :: l; last_updated := Some now; updating := false |} ]
     | (_, _) =>
         Forall (fun c' => departures c' = departures c
                           /\ last_updated c' = last_updated c) (writes y)
         /\ departures (final_cache c y) = departures c
         /\ last_updated (final_cache c y) = last_updated c
     end.

(** What the specification asks of a health endpoint, as a function of the
    outcome of the probe of the upstream. *)
Definition health_contract (handler : probe -> nat * dict) : Prop :=
  forall p,
    match p with
    | Reachable body =>
        fst (handler p) = 200 /\ lookup "ptv_status" (snd (handler p)) = Some body
    | Unreachable error =>
        fst (handler p) = 500 /\ lookup "error" (snd (handler p)) = Some (VStr error)
    end.

(** A departure of the scrape variant whose destination has no Alamein in it. *)
Definition not_to_alamein (d : dict) : Prop :=
  exists title,
    lookup "destination" d = Some (VStr title) /\ str_contains "Alamein" title = false.

(** The three classes a card is read through. *)
Definition read_classes : list string :=
  [ "departure-card__info__time__value"; "departure-card__title";
    "DepartureTimeView__text" ].

Definition card_of (time title platform : string) : Scraper.card :=
  fun c =>
    if String.eqb c "departure-card__info__time__value" then [time]
    else if String.eqb c "departure-card__title" then [title]
    else if String.eqb c "departure-card__platform" then [platform]
    else [].

(** ** Predicates of the further properties *)

Definition is_list (v : value) : bool :=
  match v with VList _ => true | _ => false end.

(** The shape of a departure the fetcher hands out: the nine keys in
    their order, an HH:MM [scheduled_time], a platform that reads 1. *)
Definition well_formed_departure (d : dict) : Prop :=
  map fst d = departure_keys
  /\ (exists s, lookup "scheduled_time" d = Some (VStr s) /\ is_HHMM s = true)
  /\ (exists p, lookup "platform" d = Some p /\ py_str p = "1").

(** A raw record that carries a timestamp. *)
Definition has_timestamp (r : value) : bool :=
  truthy (dict_get (fields_of r) "scheduled_departure_utc" VNone).

Definition reply_with_a_stray_record : list (string * value) :=
  [("departures", VList [record_city_bound; VStr "cancelled"; record_of_run_7])].

Definition later_env : Env :=
  {| clock := fun n => 900 + 7 * n;
     dice := fun n => n;
     fromisoformat_local := sample_fromisoformat_local |}.

(** The summary of the disruption [i] in the mapping [l]: none when the
    id, as a string, is not a key. *)
Definition disruption_summary (l : dict) (i : value) : list value :=
  match lookup (py_str i) l with
  | Some info =>
      [ VDict [ ("title", dict_get (fields_of info) "title" (VStr ""));
                ("description", dict_get (fields_of info) "description" (VStr "")) ] ]
  | None => []
  end.

(** Outcomes of two runs that agree but for the [live_time] they give. *)
Definition same_but_live_time (a b : result dict * World) : Prop :=
  match a, b with
  | (Ok r, w1), (Ok r', w2) =>
      w1 = w2 /\ forall k, k <> "live_time" -> lookup k r = lookup k r'
  | (Raise e, w1), (Raise e', w2) => e = e' /\ w1 = w2
  | _, _ => False
  end.

Definition disruptions_sample : value :=
  VDict [ ("101", VDict [("title", VStr "Buses replace trains")]);
          ("102", VDict [("title", VStr "Lift outage"); ("description", VStr "Platform 2")]) ].

Definition record_with_disruptions : list (string * value) :=
  [ ("platform_number", VStr "1");
    ("scheduled_departure_utc", VStr "2024-01-01T00:00:00Z");
    ("disruption_ids", VList [VInt 102; VInt 999; VStr "101"]) ].

(** The name of a route by the tiers of the normaliser. *)
Definition spec_route_name (route_name : option value) (route_id : string) : value :=
  match route_name with
  | Some v => v
  | None => if String.eqb route_id "1" then VStr "Alamein" else VStr "Unknown"
  end.

(** The description of the vehicle of a run. *)
Definition spec_vehicle (run : dict) : value :=
  match lookup "vehicle_descriptor" run with
  | Some vd => dict_get (fields_of vd) "description" VNone
  | None => VNone
  end.

(** A cache between two passes of the refresh loop: the flag is down, and
    either nothing was ever fetched, or the list is not empty and is
    stamped with an HH:MM time. *)
Definition settled (c : Cache) : Prop :=
  updating c = false
  /\ match last_updated c with
     | None => departures c = []
     | Some t => is_HHMM t = true /\ departures c <> []
     end.

(** What a reader can rely on at any moment: a cache that carries a
    timestamp carries departures. *)
Definition stamped_means_filled (c : Cache) : Prop :=
  last_updated c <> None -> departures c <> [].

(** The seconds one pass of the API variant sleeps, given the outcome of
    the report on a non-empty result. *)
Definition api_cadence (fetched : result (list dict) * World)
  (report : list dict -> M unit) : nat :=
  match fetched with
  | (Ok (d :: l), w1) =>
      match report (d :: l) {| ticks := S (ticks w1); draws := draws w1 |} with
      | (Raise _, _) => 60
      | (Ok _, _) => 300
      end
  | (_, _) => 300
  end.

Definition failing_report : list dict -> M unit :=
  fun _ w => (Raise (OtherError "PermissionError"), w).

(** The keys of a departure of the scrape variant. *)
Definition scraped_keys : list string :=
  [ "scheduled_time"; "live_time"; "destination"; "scraped_at" ].

(** A departure of the scrape variant: the four keys, the texts of the
    card under [scheduled_time] and [destination], an HH:MM [scraped_at]. *)
Definition scraped_departure (d : dict) : Prop :=
  map fst d = scraped_keys
  /\ (exists s, lookup "scheduled_time" d = Some (VStr s))
  /\ (exists s, lookup "scraped_at" d = Some (VStr s) /\ is_HHMM s = true).

(** A card the loop of the scrape passes over: its time or its title is
    missing, or its title names Alamein. *)
Definition passed_over (k : Scraper.card) : Prop :=
  (exists e, Scraper.find_element_text k "departure-card__info__time__value" = Raise e)
  \/ (exists e, Scraper.find_element_text k "departure-card__title" = Raise e)
  \/ (exists title, Scraper.find_element_text k "departure-card__title" = Ok title
                    /\ str_contains "Alamein" title = true).

Definition browser_with_one_card : nat -> result (list Scraper.card) :=
  fun _ => Ok [card_of "07:05" "Flinders Street" "1"].

Definition browser_down : nat -> result (list Scraper.card) :=
  fun i => if Nat.ltb i 3 then Raise (OtherError "WebDriverException")
           else Ok [card_of "07:05" "Flinders Street" "1"].

Definition card_without_title : Scraper.card :=
  fun c => if String.eqb c "departure-card__info__time__value" then ["07:20"] else [].

(** The departures of a list that carry the time [s]. *)
Definition has_time (s : string) (d : dict) : bool :=
  match lookup "scheduled_time" d with
  | Some (VStr t) => String.eqb t s
  | _ => false
  end.

Definition timed (s destination : string) : dict :=
  [("scheduled_time", VStr s); ("destination", VStr destination)].

(** A digit of an uppercase hexadecimal number. *)
Definition is_upper_hex (c : ascii) : bool :=
  let n := nat_of_ascii c in
  (Nat.leb 48 n && Nat.leb n 57) || (Nat.leb 65 n && Nat.leb n 70).

Fixpoint string_forall (p : ascii -> bool) (s : string) : bool :=
  match s with
  | EmptyString => true
  | String c rest => p c && string_forall p rest
  end.

(** ** Reasoning about the monad *)

Ltac unfold_m := unfold bind, lift, ret, try_catch in *.

Ltac destruct_result H :=
  match type of H with
  | context [match ?r with Ok _ => _ | Raise _ => _ end] =>
      let Hr := fresh "Hr" in destruct r eqn:Hr; try discriminate H
  end.

(** What a successful run of the normaliser has computed. *)
Lemma parse_departure_data_inv E departure routes directions runs disruptions w r w' :
  PtvApiService.parse_departure_data E departure routes directions runs disruptions w
    = (Ok r, w') ->
  exists f route_info direction_info run_info t destination vehicle dis
         route_name direction_name,
    departure = VDict f /\
    PtvApiService.lookup_info routes (py_str (dict_get f "route_id" (VStr "")))
      = Ok route_info /\
    PtvApiService.lookup_info directions (py_str (dict_get f "direction_id" (VStr "")))
      = Ok direction_info /\
    PtvApiService.lookup_info runs (py_str (dict_get f "run_id" (VStr "")))
      = Ok run_info /\
    PtvApiService.resolve_destination run_info direction_info
      (py_str (dict_get f "direction_id" (VStr ""))) = Ok destination /\
    (if truthy (dict_get f "scheduled_departure_utc" VNone)
     then PtvApiService.to_local E (dict_get f "scheduled_departure_utc" VNone) = Ok t
          /\ w' = w
     else t = clock E (ticks w)
          /\ w' = {| ticks := S (ticks w); draws := draws w |}) /\
    PtvApiService.vehicle_of run_info = Ok vehicle /\
    PtvApiService.disruptions_of departure disruptions = Ok dis /\
    PtvApiService.resolve_name route_info "route_name"
      (py_str (dict_get f "route_id" (VStr ""))) "Alamein" = Ok route_name /\
    PtvApiService.resolve_name direction_info "direction_name"
      (py_str (dict_get f "direction_id" (VStr ""))) "City" = Ok direction_name /\
    r = PtvApiService.set_live_time E
          [ ("scheduled_time", VStr (strftime_HM t));
            ("live_time", VNone);
            ("destination", destination);
            ("platform", dict_get f "platform_number" (VStr "Unknown"));
            ("at_platform", dict_get f "at_platform" (VBool false));
            ("vehicle", vehicle);
            ("direction", direction_name);
            ("disruptions", VList dis);
            ("route_name", route_name) ]
          (dict_get f "estimated_departure_utc" VNone).
Proof.
  intro H. destruct departure as [| | | | |f|]; try discriminate H.
  unfold PtvApiService.parse_departure_data in H. unfold_m. cbn [py_get] in H.
  do 6 destruct_result H.
  destruct (truthy (dict_get f "scheduled_departure_utc" VNone)) eqn:Hs; cbn [negb] in H.
  - do 5 destruct_result H. inversion H; subst.
    exists f, a1, a2, a3, a5, a4, a6, a7, a8, a9. rewrite Hs. repeat split; auto.
  - unfold PtvApiService.get_melbourne_time in H. do 4 destruct_result H.
    inversion H; subst.
    exists f, a1, a2, a3, (clock E (ticks w)), a4, a5, a6, a7, a8. rewrite Hs.
    repeat split; auto.
Qed.

(** *** The normaliser returns on well-typed inputs *)

Lemma lookup_forallb (p : value -> bool) k l x :
  forallb (fun kv => p (snd kv)) l = true -> lookup k l = Some x -> p x = true.
Proof.
  induction l as [|[k' v] l IH]; cbn; intros Hall Hl; [discriminate|].
  apply andb_prop in Hall as [Hv Hall].
  destruct (String.eqb k k'); [inversion Hl; subst; exact Hv | auto].
Qed.

Lemma lookup_info_read m k :
  usable_mapping m = true -> PtvApiService.lookup_info m k = Ok (info_read m k).
Proof.
  unfold usable_mapping, PtvApiService.lookup_info, info_read.
  destruct m as [|b|z|s|l|d|x]; cbn [is_dict orb]; intro H;
    try (apply negb_true_iff in H; rewrite H; reflexivity).
  destruct d; reflexivity.
Qed.

Lemma has_field_dict f k :
  PtvApiService.has_field (VDict f) k = Ok (truthy (VDict f) && has_key k f).
Proof. unfold PtvApiService.has_field. destruct (truthy (VDict f)); reflexivity. Qed.

Lemma has_field_falsy v k :
  truthy v = false -> PtvApiService.has_field v k = Ok false.
Proof. unfold PtvApiService.has_field. intros ->. reflexivity. Qed.

Lemma readable_info_cases v :
  readable_info v = true -> (exists f, v = VDict f) \/ truthy v = false.
Proof.
  unfold readable_info. destruct v as [|b|z|s|l|d|x]; cbn [is_dict orb]; intro H;
    try (right; apply negb_true_iff, H). left. eauto.
Qed.

Lemma resolve_name_readable info field id fallback :
  readable_info info = true ->
  exists v, PtvApiService.resolve_name info field id fallback = Ok v.
Proof.
  intro H. unfold PtvApiService.resolve_name.
  destruct (readable_info_cases _ H) as [[f ->]|Hf].
  - rewrite has_field_dict. destruct (truthy (VDict f) && has_key field f); cbn; eauto.
  - rewrite has_field_falsy by exact Hf. eauto.
Qed.

Lemma resolve_destination_readable run_info direction_info id :
  readable_info run_info = true -> readable_info direction_info = true ->
  exists v, PtvApiService.resolve_destination run_info direction_info id = Ok v.
Proof.
  intros Hr Hd. unfold PtvApiService.resolve_destination.
  assert (Hdir : exists v,
             match PtvApiService.has_field direction_info "direction_name" with
             | Ok true => py_get direction_info "direction_name" VNone
             | Ok false =>
                 Ok (VStr (if String.eqb id "1" then "Camberwell" else "Unknown"))
             | Raise e => Raise e
             end = Ok v).
  { destruct (readable_info_cases _ Hd) as [[f ->]|Hf].
    - rewrite has_field_dict.
      destruct (truthy (VDict f) && has_key "direction_name" f); cbn; eauto.
    - rewrite has_field_falsy by exact Hf. eauto. }
  destruct (readable_info_cases _ Hr) as [[f ->]|Hf].
  - rewrite has_field_dict.
    destruct (truthy (VDict f) && has_key "destination_name" f); [cbn; eauto|exact Hdir].
  - rewrite has_field_falsy by exact Hf. exact Hdir.
Qed.

Lemma run_entry_readable v : run_entry v = true -> readable_info v = true.
Proof.
  unfold readable_info. destruct v as [|b|z|s|l|d|x]; cbn [run_entry is_dict orb]; auto.
Qed.

Lemma vehicle_of_run_entry run_info :
  run_entry run_info = true -> exists v, PtvApiService.vehicle_of run_info = Ok v.
Proof.
  intro H. unfold PtvApiService.vehicle_of.
  destruct (readable_info_cases _ (run_entry_readable _ H)) as [[rf ->]|Hf].
  - cbn [run_entry] in H. rewrite has_field_dict. unfold has_key.
    destruct (lookup "vehicle_descriptor" rf) as [vd|] eqn:Hl.
    + destruct (truthy (VDict rf)); cbn; eauto. rewrite Hl.
      destruct vd as [| | | | |vf|]; try discriminate. cbn. eauto.
    + rewrite andb_false_r. eauto.
  - rewrite has_field_falsy by exact Hf. eauto.
Qed.

Lemma collect_disruptions_total l ids :
  forallb (fun i => match lookup (py_str i) l with
                    | Some info => is_dict info
                    | None => true
                    end) ids = true ->
  exists dis, PtvApiService.collect_disruptions (VDict l) ids = Ok dis.
Proof.
  induction ids as [|i ids IH]; cbn [forallb PtvApiService.collect_disruptions];
    intro H; [eauto|].
  apply andb_prop in H as [Hi Hrest]. destruct (IH Hrest) as [more Hmore].
  cbn [py_contains py_subscript]. unfold has_key.
  destruct (lookup (py_str i) l) as [x|]; [|eauto].
  destruct x as [| | | | |xf|]; try discriminate. cbn [py_get]. rewrite Hmore. eauto.
Qed.

Lemma disruptions_of_total f disruptions :
  disruptions_ok disruptions (dict_get f "disruption_ids" VNone) = true ->
  exists dis, PtvApiService.disruptions_of (VDict f) disruptions = Ok dis.
Proof.
  unfold disruptions_ok, PtvApiService.disruptions_of. cbn [py_get].
  destruct (truthy disruptions); [|eauto].
  destruct (truthy (dict_get f "disruption_ids" VNone)); [|eauto].
  cbn [negb orb].
  destruct disruptions as [| | | | |l|]; try discriminate.
  destruct (py_iter (dict_get f "disruption_ids" VNone)) as [items|]; [|discriminate].
  apply collect_disruptions_total.
Qed.

Lemma run_lookup_total runs k :
  usable_mapping runs = true ->
  exists b, (if truthy runs then py_contains k runs else Ok false) = Ok b /\
            exists ks, (if negb b && truthy runs then py_keys runs else Ok []) = Ok ks.
Proof.
  unfold usable_mapping. intro Hm. destruct (truthy runs) eqn:Ht.
  - destruct runs as [| | | | |d|]; cbn [is_dict negb orb] in Hm; try discriminate Hm.
    cbn. eexists; split; [reflexivity|]. destruct (negb (has_key k d)); cbn; eauto.
  - exists false. split; [reflexivity|]. cbn. eauto.
Qed.

Lemma parse_departure_data_total E departure routes directions runs disruptions w :
  well_typed E departure routes directions runs disruptions = true ->
  exists r w',
    PtvApiService.parse_departure_data E departure routes directions runs disruptions w
      = (Ok r, w').
Proof.
  destruct departure as [| | | | |f|]; try discriminate. cbn [well_typed]. intro H.
  repeat (apply andb_prop in H as [H ?]).
  destruct (run_lookup_total runs (py_str (dict_get f "run_id" (VStr ""))))
    as (b & Hb & ks & Hks); [assumption|].
  destruct (resolve_destination_readable
              (info_read runs (py_str (dict_get f "run_id" (VStr ""))))
              (info_read directions (py_str (dict_get f "direction_id" (VStr ""))))
              (py_str (dict_get f "direction_id" (VStr ""))))
    as (dest & Hdest); [auto using run_entry_readable|assumption|].
  destruct (vehicle_of_run_entry
              (info_read runs (py_str (dict_get f "run_id" (VStr "")))))
    as (veh & Hveh); [assumption|].
  destruct (disruptions_of_total f disruptions) as (dis & Hdis); [assumption|].
  destruct (resolve_name_readable
              (info_read routes (py_str (dict_get f "route_id" (VStr ""))))
              "route_name" (py_str (dict_get f "route_id" (VStr ""))) "Alamein")
    as (rn & Hrn); [assumption|].
  destruct (resolve_name_readable
              (info_read directions (py_str (dict_get f "direction_id" (VStr ""))))
              "direction_name" (py_str (dict_get f "direction_id" (VStr ""))) "City")
    as (dn & Hdn); [assumption|].
  unfold PtvApiService.parse_departure_data. unfold_m. cbn [py_get].
  rewrite Hb, Hks, !lookup_info_read by assumption. rewrite Hdest.
  unfold timestamp_ok in H.
  destruct (truthy (dict_get f "scheduled_departure_utc" VNone)); cbn [negb orb] in *.
  - destruct (PtvApiService.to_local E (dict_get f "scheduled_departure_utc" VNone));
      [|discriminate].
    rewrite Hveh, Hdis, Hrn, Hdn. eauto.
  - unfold PtvApiService.get_melbourne_time. rewrite Hveh, Hdis, Hrn, Hdn. eauto.
Qed.

(** *** Dicts *)

Lemma lookup_dict_set d k k' v :
  lookup k (dict_set d k' v) = if String.eqb k k' then Some v else lookup k d.
Proof.
  induction d as [|[k0 v0] d IH]; cbn.
  - destruct (String.eqb k k'); reflexivity.
  - destruct (String.eqb k' k0) eqn:E0; cbn.
    + apply String.eqb_eq in E0. subst k0. destruct (String.eqb k k'); reflexivity.
    + rewrite IH. destruct (String.eqb k k0) eqn:E1; [|reflexivity].
      apply String.eqb_eq in E1. subst k0.
      rewrite String.eqb_sym, E0. reflexivity.
Qed.

Lemma lookup_absent k d : ~ In k (map fst d) -> lookup k d = None.
Proof.
  induction d as [|[k0 v0] d IH]; cbn; intro H; [reflexivity|].
  destruct (String.eqb k k0) eqn:E0.
  - apply String.eqb_eq in E0. subst. tauto.
  - apply IH. tauto.
Qed.

(** [update] lets the keys of the other dict win and keeps the rest. *)
Lemma lookup_dict_update other : forall d k,
  NoDup (map fst other) ->
  lookup k (dict_update d other)
  = match lookup k other with Some v => Some v | None => lookup k d end.
Proof.
  unfold dict_update.
  induction other as [|[k1 v1] other IH]; cbn; intros d k Hnd; [reflexivity|].
  inversion Hnd as [|? ? Hnotin Hnd']; subst.
  rewrite IH by assumption. rewrite lookup_dict_set.
  destruct (String.eqb k k1) eqn:E1.
  - apply String.eqb_eq in E1. subst k1. rewrite lookup_absent by assumption. reflexivity.
  - reflexivity.
Qed.

Lemma map_fst_dict_set d k v :
  In k (map fst d) -> map fst (dict_set d k v) = map fst d.
Proof.
  induction d as [|[k0 v0] d IH]; cbn; intro H; [tauto|].
  destruct (String.eqb k k0) eqn:E0; cbn; [reflexivity|].
  f_equal. apply IH. destruct H as [H|H]; [|assumption].
  subst. rewrite String.eqb_refl in E0. discriminate.
Qed.

Lemma map_fst_dict_update other : forall d,
  (forall k, In k (map fst other) -> In k (map fst d)) ->
  map fst (dict_update d other) = map fst d.
Proof.
  unfold dict_update.
  induction other as [|[k v] other IH]; cbn [fold_left map fst snd]; intros d H;
    [reflexivity|].
  rewrite IH.
  - apply map_fst_dict_set. apply H. left. reflexivity.
  - intros k' Hk'. rewrite map_fst_dict_set by (apply H; left; reflexivity).
    apply H. right. exact Hk'.
Qed.

Lemma set_live_time_keys E d est :
  In "live_time" (map fst d) ->
  map fst (PtvApiService.set_live_time E d est) = map fst d.
Proof.
  intro H. unfold PtvApiService.set_live_time.
  destruct (truthy est); [|reflexivity].
  destruct (PtvApiService.to_local E est); [|reflexivity].
  apply map_fst_dict_set, H.
Qed.

Lemma set_live_time_lookup E d est k :
  k <> "live_time" ->
  lookup k (PtvApiService.set_live_time E d est) = lookup k d.
Proof.
  intro H. unfold PtvApiService.set_live_time.
  destruct (truthy est); [|reflexivity].
  destruct (PtvApiService.to_local E est); [|reflexivity].
  rewrite lookup_dict_set. apply String.eqb_neq in H. rewrite H. reflexivity.
Qed.

(** The normaliser sets all nine keys. *)
Lemma parse_departure_data_keys E departure routes directions runs disruptions w r w' :
  PtvApiService.parse_departure_data E departure routes directions runs disruptions w
    = (Ok r, w') ->
  map fst r = departure_keys.
Proof.
  intro H. apply parse_departure_data_inv in H.
  destruct H as (f & ri & di & ui & t & dest & veh & dis & rn & dn & H).
  decompose [and] H. subst r. rewrite set_live_time_keys; [reflexivity|].
  cbn. tauto.
Qed.

Lemma departure_keys_NoDup : NoDup departure_keys.
Proof.
  unfold departure_keys.
  repeat (constructor; [cbn; intuition discriminate|]). constructor.
Qed.

(** *** The loop body *)

Lemma passes_filter_dict departure :
  passes_filter departure = true ->
  exists f p, departure = VDict f /\ lookup "platform_number" f = Some p
              /\ py_str p = "1".
Proof.
  unfold passes_filter. destruct departure as [| | | | |f|]; try discriminate.
  cbn. unfold dict_get. intro H. apply String.eqb_eq in H.
  destruct (lookup "platform_number" f) as [p|] eqn:Hl; [eauto 10|discriminate].
Qed.

Lemma process_departure_unfold E routes directions runs disruptions departure w :
  passes_filter departure = true ->
  PtvApiService.process_departure E routes directions runs disruptions departure w
  = match PtvApiService.basic_departure E departure "1" w with
    | (Raise _, w1) => (Ok PtvApiService.Dropped, w1)
    | (Ok basic, w1) =>
        match PtvApiService.parse_departure_data E departure routes directions runs
                disruptions w1 with
        | (Ok enhanced, w2) =>
            (Ok (PtvApiService.Kept (dict_update basic enhanced) true), w2)
        | (Raise _, w2) => (Ok (PtvApiService.Kept basic false), w2)
        end
    end.
Proof.
  intro H. destruct (passes_filter_dict _ H) as (f & p & -> & Hl & Hp).
  unfold PtvApiService.process_departure. unfold_m. cbn [py_get].
  unfold dict_get. rewrite Hl, Hp. cbn [String.eqb Ascii.eqb Bool.eqb negb].
  destruct (PtvApiService.basic_departure E (VDict f) "1" w) as [[basic|e] w1];
    [|reflexivity].
  destruct (PtvApiService.parse_departure_data E (VDict f) routes directions runs
              disruptions w1) as [[enhanced|e] w2]; reflexivity.
Qed.

(** What a successful construction of the basic record has computed. *)
Lemma basic_departure_inv E departure platform w b w' :
  PtvApiService.basic_departure E departure platform w = (Ok b, w') ->
  exists f t,
    departure = VDict f /\
    (if truthy (dict_get f "scheduled_departure_utc" VNone)
     then PtvApiService.to_local E (dict_get f "scheduled_departure_utc" VNone) = Ok t
          /\ w' = w
     else t = add_minutes (clock E (ticks w)) (15 + dice E (draws w) mod 106)
          /\ w' = {| ticks := S (ticks w); draws := S (draws w) |}) /\
    b = PtvApiService.set_live_time E
          [ ("scheduled_time", VStr (strftime_HM t));
            ("live_time", VNone);
            ("destination",
             VStr (if String.eqb (py_str (dict_get f "direction_id" (VStr ""))) "1"
                   then "Camberwell" else "Unknown"));
            ("platform", VStr platform);
            ("at_platform", dict_get f "at_platform" (VBool false));
            ("vehicle", VNone);
            ("direction",
             VStr (if String.eqb (py_str (dict_get f "direction_id" (VStr ""))) "1"
                   then "City" else "Unknown"));
            ("disruptions", VList []);
            ("route_name",
             VStr (if String.eqb (py_str (dict_get f "route_id" (VStr ""))) "1"
                   then "Alamein" else "Unknown")) ]
          (dict_get f "estimated_departure_utc" VNone).
Proof.
  intro H. destruct departure as [| | | | |f|]; try discriminate H.
  unfold PtvApiService.basic_departure in H. unfold_m. cbn [py_get] in H.
  destruct (truthy (dict_get f "scheduled_departure_utc" VNone)) eqn:Hs; cbn [negb] in H.
  - destruct_result H. inversion H; subst. exists f, a. rewrite Hs. auto.
  - unfold PtvApiService.get_melbourne_time, PtvApiService.randint_15_120 in H.
    cbv beta iota zeta in H. cbn [ticks draws] in H.
    inversion H; subst. eexists f, _. rewrite Hs. auto.
Qed.

(** *** The tiers of the display names *)

Lemma lookup_info_metadata m k info :
  PtvApiService.lookup_info m k = Ok info -> fields_of info = metadata m k.
Proof.
  unfold PtvApiService.lookup_info, metadata. destruct (truthy m) eqn:Ht.
  - destruct m as [| | | | |l|]; try discriminate. cbn. unfold dict_get.
    intro H. inversion H. destruct (lookup k l); reflexivity.
  - intro H. inversion H. destruct m as [| | | | |l|]; try reflexivity.
    destruct l; [reflexivity|discriminate].
Qed.

Lemma has_field_spec info k b :
  PtvApiService.has_field info k = Ok b ->
  if b then forall v, py_get info k VNone = Ok v -> lookup k (fields_of info) = Some v
  else lookup k (fields_of info) = None.
Proof.
  unfold PtvApiService.has_field. destruct (truthy info) eqn:Ht; intro H.
  - destruct info as [|b0|z|s|l|f|]; cbn [py_contains py_get fields_of] in *;
      try discriminate H; inversion H; subst.
    + destruct (str_contains k s); [intros v Hv; discriminate Hv|reflexivity].
    + destruct (existsb (is_str k) l); [intros v Hv; discriminate Hv|reflexivity].
    + unfold has_key, dict_get. destruct (lookup k f) as [x|]; [|reflexivity].
      intros v Hv. inversion Hv. reflexivity.
  - inversion H; subst. destruct info as [|b0|z|s|l|f|]; try reflexivity.
    destruct f; [reflexivity|discriminate Ht].
Qed.

Lemma resolve_name_spec info field id fallback v :
  PtvApiService.resolve_name info field id fallback = Ok v ->
  v = match lookup field (fields_of info) with
      | Some x => x
      | None => VStr (if String.eqb id "1" then fallback else "Unknown")
      end.
Proof.
  unfold PtvApiService.resolve_name.
  destruct (PtvApiService.has_field info field) as [[|]|] eqn:Hf; try discriminate;
    apply has_field_spec in Hf; intro H.
  - rewrite (Hf _ H). reflexivity.
  - rewrite Hf. inversion H. reflexivity.
Qed.

Lemma resolve_destination_by_key run_info direction_info id v :
  PtvApiService.resolve_destination run_info direction_info id = Ok v ->
  v = destination_by_key (lookup "destination_name" (fields_of run_info))
        (lookup "direction_name" (fields_of direction_info)) id.
Proof.
  unfold PtvApiService.resolve_destination, destination_by_key.
  destruct (PtvApiService.has_field run_info "destination_name") as [[|]|] eqn:Hr;
    try discriminate; apply has_field_spec in Hr; intro H.
  - rewrite (Hr _ H). reflexivity.
  - rewrite Hr.
    destruct (PtvApiService.has_field direction_info "direction_name") as [[|]|] eqn:Hd;
      try discriminate; apply has_field_spec in Hd.
    + rewrite (Hd _ H). reflexivity.
    + rewrite Hd. inversion H. destruct (String.eqb id "1"); reflexivity.
Qed.

(** ** The properties of the specification *)




(** *** The fields of the two records *)

Lemma set_live_time_live_time E d est :
  lookup "live_time" d = Some VNone ->
  lookup "live_time" (PtvApiService.set_live_time E d est) = Some (live_time_of E est).
Proof.
  intro H. unfold PtvApiService.set_live_time, live_time_of.
  destruct (truthy est); [|exact H].
  destruct (PtvApiService.to_local E est); [|exact H].
  rewrite lookup_dict_set. reflexivity.
Qed.


(** The fields of the record the normaliser returns. *)
Lemma parse_departure_data_fields E f routes directions runs disruptions w r w' :
  PtvApiService.parse_departure_data E (VDict f) routes directions runs disruptions w
    = (Ok r, w') ->
  (exists t, lookup "scheduled_time" r = Some (VStr (strftime_HM t)))
  /\ lookup "live_time" r
     = Some (live_time_of E (dict_get f "estimated_departure_utc" VNone))
  /\ lookup "destination" r
     = Some (destination_by_key
               (lookup "destination_name" (metadata runs (id_of (VDict f) "run_id")))
               (lookup "direction_name"
                  (metadata directions (id_of (VDict f) "direction_id")))
               (id_of (VDict f) "direction_id"))
  /\ lookup "platform" r = Some (dict_get f "platform_number" (VStr "Unknown"))
  /\ lookup "at_platform" r = Some (dict_get f "at_platform" (VBool false))
  /\ lookup "direction" r
     = Some (match lookup "direction_name"
                     (metadata directions (id_of (VDict f) "direction_id")) with
             | Some x => x
             | None => VStr (if String.eqb (id_of (VDict f) "direction_id") "1"
                             then "City" else "Unknown")
             end)
  /\ (exists dis, lookup "disruptions" r = Some (VList dis))
  /\ lookup "route_name" r
     = Some (match lookup "route_name"
                     (metadata routes (id_of (VDict f) "route_id")) with
             | Some x => x
             | None => VStr (if String.eqb (id_of (VDict f) "route_id") "1"
                             then "Alamein" else "Unknown")
             end).
Proof.
  intro H. apply parse_departure_data_inv in H.
  destruct H as (f' & ri & di & ui & t & dest & veh & dis & rn & dn & H).
  destruct H as (Hf & Hri & Hdi & Hui & Hdest & _ & _ & _ & Hrn & Hdn & ->).
  inversion Hf; subst f'.
  apply lookup_info_metadata in Hri, Hdi, Hui.
  apply resolve_destination_by_key in Hdest.
  apply resolve_name_spec in Hrn, Hdn.
  rewrite Hui, Hdi in Hdest. rewrite Hri in Hrn. rewrite Hdi in Hdn.
  cbn [id_of]. subst dest rn dn.
  split; [exists t; rewrite set_live_time_lookup by discriminate; reflexivity|].
  split; [apply set_live_time_live_time; reflexivity|].
  split; [rewrite set_live_time_lookup by discriminate; reflexivity|].
  split; [rewrite set_live_time_lookup by discriminate; reflexivity|].
  split; [rewrite set_live_time_lookup by discriminate; reflexivity|].
  split; [rewrite set_live_time_lookup by discriminate; reflexivity|].
  split; [exists dis; rewrite set_live_time_lookup by discriminate; reflexivity|].
  rewrite set_live_time_lookup by discriminate. reflexivity.
Qed.







(** *** The destination *)

Lemma destination_by_key_spec run_destination direction_name id :
  chain_reads_a_name run_destination direction_name = true ->
  destination_by_key run_destination direction_name id
  = spec_destination run_destination direction_name id.
Proof.
  unfold chain_reads_a_name, destination_by_key, spec_destination.
  destruct run_destination as [v|].
  - destruct v as [| | |[|c s]| | |]; try discriminate. reflexivity.
  - destruct direction_name as [v|]; [|reflexivity].
    destruct v as [| | |[|c s]| | |]; try discriminate. reflexivity.
Qed.

(** C4 (as stated, refuted): for the record of run 7, of direction 1, with
    a run whose [destination_name] is null and a direction that has a name,
    the normaliser returns a null destination, where the chain of the
    specification gives the name of the direction. *)
Lemma null_destination_name_ends_the_chain :
  exists r,
    PtvApiService.parse_departure_data sample_env record_of_run_7
      no_mapping directions_sample runs_null_destination no_mapping start
    = (Ok r, start)
    /\ lookup "destination" r = Some VNone
    /\ spec_destination
         (lookup "destination_name"
            (metadata runs_null_destination (id_of record_of_run_7 "run_id")))
         (lookup "direction_name"
            (metadata directions_sample (id_of record_of_run_7 "direction_id")))
         (id_of record_of_run_7 "direction_id")
       = VStr "City (Flinders Street)".
Proof. eexists. vm_compute. repeat split. Qed.

(** C4 (amended): on every return of the normaliser, the destination
    follows the priority chain of the specification (the destination name of
    the run, else the name of the direction, else the city-bound name for
    direction 1, else Unknown) when the field the chain stops at holds a
    name; and for a record of direction 1 whose run id and direction id find
    no metadata, the destination is Camberwell and the direction is City,
    whatever the routes hold.  The normaliser does return when its inputs
    are well typed. *)
Theorem destination_priority_chain E departure routes directions runs disruptions w :
  let direction_id := id_of departure "direction_id" in
  let run := metadata runs (id_of departure "run_id") in
  let direction := metadata directions direction_id in
  (forall r w',
      PtvApiService.parse_departure_data E departure routes directions runs
        disruptions w = (Ok r, w') ->
      (chain_reads_a_name (lookup "destination_name" run)
         (lookup "direction_name" direction) = true ->
       lookup "destination" r
       = Some (spec_destination (lookup "destination_name" run)
                 (lookup "direction_name" direction) direction_id))
      /\ (direction_id = "1" -> run = [] -> direction = [] ->
          lookup "destination" r = Some (VStr "Camberwell")
          /\ lookup "direction" r = Some (VStr "City")))
  /\ (well_typed E departure routes directions runs disruptions = true ->
      exists r w',
        PtvApiService.parse_departure_data E departure routes directions runs
          disruptions w = (Ok r, w')
        /\ (chain_reads_a_name (lookup "destination_name" run)
              (lookup "direction_name" direction) = true ->
            lookup "destination" r
            = Some (spec_destination (lookup "destination_name" run)
                      (lookup "direction_name" direction) direction_id))
        /\ (direction_id = "1" -> run = [] -> direction = [] ->
            lookup "destination" r = Some (VStr "Camberwell")
            /\ lookup "direction" r = Some (VStr "City"))).
Proof.
  intros direction_id run direction.
  assert (Hmain : forall r w',
      PtvApiService.parse_departure_data E departure routes directions runs
        disruptions w = (Ok r, w') ->
      (chain_reads_a_name (lookup "destination_name" run)
         (lookup "direction_name" direction) = true ->
       lookup "destination" r
       = Some (spec_destination (lookup "destination_name" run)
                 (lookup "direction_name" direction) direction_id))
      /\ (direction_id = "1" -> run = [] -> direction = [] ->
          lookup "destination" r = Some (VStr "Camberwell")
          /\ lookup "direction" r = Some (VStr "City"))).
  { intros r w' H.
    destruct (parse_departure_data_inv _ _ _ _ _ _ _ _ _ H)
      as (f & ri & di & ui & t & dest & veh & dis & rn & dn & Hf & _).
    subst direction_id run direction. subst departure.
    apply parse_departure_data_fields in H.
    destruct H as (_ & _ & Hdest & _ & _ & Hdir & _).
    split.
    - intro Hc. rewrite Hdest. f_equal. apply destination_by_key_spec, Hc.
    - intros H1 Hr Hd. rewrite Hdest, Hdir, Hr, Hd, H1. split; reflexivity. }
  split; [exact Hmain|].
  intros Hwt.
  destruct (parse_departure_data_total E _ _ _ _ _ w Hwt) as (r & w' & Hp).
  exists r, w'. split; [exact Hp|]. apply (Hmain r w' Hp).
Qed.

Lemma destination_priority_chain_witness :
  (exists r w',
      PtvApiService.parse_departure_data sample_env record_of_run_7 routes_sample
        directions_sample runs_with_a_broken_neighbour no_mapping start = (Ok r, w')
      /\ lookup "destination" r = Some (VStr "Flinders Street"))
  /\ (exists r w',
         PtvApiService.parse_departure_data sample_env record_of_run_7 routes_sample
           directions_sample no_mapping no_mapping start = (Ok r, w')
         /\ lookup "destination" r = Some (VStr "City (Flinders Street)"))
  /\ (exists r w',
         PtvApiService.parse_departure_data sample_env record_city_bound routes_sample
           no_mapping runs_with_vehicle no_mapping start = (Ok r, w')
         /\ lookup "destination" r = Some (VStr "Camberwell")
         /\ lookup "direction" r = Some (VStr "City")).
Proof.
  split; [|split].
  - pose proof (destination_priority_chain sample_env record_of_run_7 routes_sample
                  directions_sample runs_with_a_broken_neighbour no_mapping start) as H.
    cbv zeta in H. destruct H as [_ H].
    destruct (H eq_refl) as (r & w' & Hp & Hc & _).
    exists r, w'. split; [exact Hp|]. rewrite (Hc eq_refl). reflexivity.
  - pose proof (destination_priority_chain sample_env record_of_run_7 routes_sample
                  directions_sample no_mapping no_mapping start) as H.
    cbv zeta in H. destruct H as [_ H].
    destruct (H eq_refl) as (r & w' & Hp & Hc & _).
    exists r, w'. split; [exact Hp|]. rewrite (Hc eq_refl). reflexivity.
  - pose proof (destination_priority_chain sample_env record_city_bound routes_sample
                  no_mapping runs_with_vehicle no_mapping start) as H.
    cbv zeta in H. destruct H as [_ H].
    destruct (H eq_refl) as (r & w' & Hp & _ & Hf).
    exists r, w'. split; [exact Hp|]. apply Hf; reflexivity.
Defined.

(** C9: the normaliser copies [platform_number] as it is (Unknown when the
    record has none), and when the enhancement succeeds the kept record
    carries that raw value in place of the string the basic record held: a
    record admitted with the number 1 is exposed with the number 1. *)
Theorem merged_platform_is_raw_platform_number
  E routes directions runs disruptions departure :
  (forall w r w',
      PtvApiService.parse_departure_data E departure routes directions runs
        disruptions w = (Ok r, w') ->
      lookup "platform" r
      = Some (dict_get (fields_of departure) "platform_number" (VStr "Unknown")))
  /\ (forall w basic w1 enhanced w2,
      passes_filter departure = true ->
      PtvApiService.basic_departure E departure "1" w = (Ok basic, w1) ->
      PtvApiService.parse_departure_data E departure routes directions runs
        disruptions w1 = (Ok enhanced, w2) ->
      exists raw merged,
        lookup "platform_number" (fields_of departure) = Some raw
        /\ PtvApiService.process_departure E routes directions runs disruptions
             departure w = (Ok (PtvApiService.Kept merged true), w2)
        /\ lookup "platform" basic = Some (VStr "1")
        /\ lookup "platform" merged = Some raw
        /\ (raw = VInt 1 -> lookup "platform" merged <> Some (VStr "1"))).
Proof.
  assert (Hnorm : forall w r w',
      PtvApiService.parse_departure_data E departure routes directions runs
        disruptions w = (Ok r, w') ->
      lookup "platform" r
      = Some (dict_get (fields_of departure) "platform_number" (VStr "Unknown"))).
  { intros w r w' H. apply parse_departure_data_inv in H.
    destruct H as (f & ri & di & ui & t & dest & veh & dis & rn & dn & H).
    destruct H as (-> & _ & _ & _ & _ & _ & _ & _ & _ & _ & ->).
    rewrite set_live_time_lookup by discriminate. reflexivity. }
  split; [exact Hnorm|].
  intros w basic w1 enhanced w2 Hf Hb Hp.
  destruct (passes_filter_dict _ Hf) as (f & raw & -> & Hl & Hs).
  exists raw, (dict_update basic enhanced).
  assert (Hm : lookup "platform" (dict_update basic enhanced) = Some raw).
  { rewrite lookup_dict_update.
    - rewrite (Hnorm _ _ _ Hp). cbn [fields_of]. unfold dict_get. rewrite Hl. reflexivity.
    - rewrite (parse_departure_data_keys _ _ _ _ _ _ _ _ _ Hp).
      apply departure_keys_NoDup. }
  split; [exact Hl|]. split.
  - rewrite (process_departure_unfold _ _ _ _ _ _ _ Hf), Hb, Hp. reflexivity.
  - split.
    + apply basic_departure_inv in Hb. destruct Hb as (f' & t & _ & _ & ->).
      rewrite set_live_time_lookup by discriminate. reflexivity.
    + split; [exact Hm|]. intros ->. rewrite Hm. discriminate.
Qed.

Lemma merged_platform_is_raw_platform_number_witness :
  exists merged,
    PtvApiService.process_departure sample_env no_mapping no_mapping
      runs_with_vehicle no_mapping record_of_run_7 start
    = (Ok (PtvApiService.Kept merged true), start)
    /\ lookup "platform" merged = Some (VInt 1)
    /\ lookup "platform" merged <> Some (VStr "1").
Proof.
  destruct (proj2 (merged_platform_is_raw_platform_number sample_env no_mapping
                     no_mapping runs_with_vehicle no_mapping record_of_run_7)
              start _ start _ start eq_refl eq_refl eq_refl)
    as (raw & merged & Hraw & Hm & _ & Hp & Hne).
  vm_compute in Hraw. inversion Hraw; subst raw.
  exists merged. split; [exact Hm|]. split; [exact Hp|]. apply Hne. reflexivity.
Defined.

(** *** The format of the times *)

Lemma is_digit_digit d : d < 10 -> is_digit (digit d) = true.
Proof.
  intro H. do 10 (destruct d as [|d]; [reflexivity|]). lia.
Qed.

Lemma strftime_HM_shape t : is_HHMM (strftime_HM t) = true.
Proof.
  unfold strftime_HM, two_digits. cbn [append is_HHMM].
  assert (Hh : (t / 60) mod 24 < 24) by (apply Nat.mod_upper_bound; lia).
  assert (Hm : t mod 60 < 60) by (apply Nat.mod_upper_bound; lia).
  rewrite !is_digit_digit; [reflexivity| | | |].
  - apply Nat.mod_upper_bound; lia.
  - apply Nat.Div0.div_lt_upper_bound; lia.
  - apply Nat.mod_upper_bound; lia.
  - apply Nat.Div0.div_lt_upper_bound; lia.
Qed.

(** *** Records without a timestamp *)

Lemma basic_departure_missing_timestamp E f platform w :
  truthy (dict_get f "scheduled_departure_utc" VNone) = false ->
  exists b,
    PtvApiService.basic_departure E (VDict f) platform w
    = (Ok b, {| ticks := S (ticks w); draws := S (draws w) |})
    /\ lookup "scheduled_time" b
       = Some (VStr (strftime_HM (add_minutes (clock E (ticks w))
                                    (15 + dice E (draws w) mod 106)))).
Proof.
  intro Hs. unfold PtvApiService.basic_departure. unfold_m. cbn [py_get].
  rewrite Hs. cbn [negb].
  unfold PtvApiService.get_melbourne_time, PtvApiService.randint_15_120.
  cbv beta iota zeta. cbn [ticks draws].
  eexists. split; [reflexivity|].
  rewrite set_live_time_lookup by discriminate. reflexivity.
Qed.

Lemma parse_departure_data_scheduled_time
  E departure routes directions runs disruptions w r w' :
  PtvApiService.parse_departure_data E departure routes directions runs disruptions w
    = (Ok r, w') ->
  exists t,
    lookup "scheduled_time" r = Some (VStr (strftime_HM t))
    /\ (truthy (dict_get (fields_of departure) "scheduled_departure_utc" VNone) = false ->
        t = clock E (ticks w)).
Proof.
  intro H. apply parse_departure_data_inv in H.
  destruct H as (f & ri & di & ui & t & dest & veh & dis & rn & dn & H).
  destruct H as (-> & _ & _ & _ & _ & Ht & _ & _ & _ & _ & ->).
  exists t. split.
  - rewrite set_live_time_lookup by discriminate. reflexivity.
  - cbn [fields_of]. intro Hs. rewrite Hs in Ht. tauto.
Qed.

(** C6 (as stated, refuted): for the record with no field at all, read at
    10:00, the normaliser answers 10:00, which is none of the times
    [now + j] for a jitter [j] of 15 to 120 minutes. *)
Lemma normaliser_fallback_has_no_jitter :
  exists r,
    PtvApiService.parse_departure_data sample_env (VDict []) no_mapping no_mapping
      no_mapping no_mapping start = (Ok r, {| ticks := 1; draws := 0 |})
    /\ lookup "scheduled_time" r = Some (VStr "10:00")
    /\ clock sample_env 0 = 600
    /\ existsb (String.eqb "10:00") (jittered 600) = false.
Proof. eexists. repeat split; vm_compute; reflexivity. Qed.

(** C6 (amended): for a record without [scheduled_departure_utc], the
    normaliser, whenever it returns, gives as [scheduled_time] the current
    local time as HH:MM, with no jitter, and it does return when the other
    fields are well typed; the fetcher never raises on such a record that
    passes the filter and keeps it with an HH:MM [scheduled_time], which is
    the current local time of the normaliser when the enhancement succeeded,
    and the current local time plus a random 15 to 120 minutes when it
    failed. *)
Theorem missing_timestamp_fallback E routes directions runs disruptions f w :
  truthy (dict_get f "scheduled_departure_utc" VNone) = false ->
  (forall r w',
      PtvApiService.parse_departure_data E (VDict f) routes directions runs
        disruptions w = (Ok r, w') ->
      lookup "scheduled_time" r = Some (VStr (strftime_HM (clock E (ticks w))))
      /\ is_HHMM (strftime_HM (clock E (ticks w))) = true)
  /\ (well_typed E (VDict f) routes directions runs disruptions = true ->
      exists r w',
        PtvApiService.parse_departure_data E (VDict f) routes directions runs
          disruptions w = (Ok r, w'))
  /\ (passes_filter (VDict f) = true ->
      exists d enhanced w' s,
        PtvApiService.process_departure E routes directions runs disruptions
          (VDict f) w = (Ok (PtvApiService.Kept d enhanced), w')
        /\ lookup "scheduled_time" d = Some (VStr s)
        /\ is_HHMM s = true
        /\ if enhanced then s = strftime_HM (clock E (S (ticks w)))
           else exists j, 15 <= j <= 120
                          /\ s = strftime_HM (add_minutes (clock E (ticks w)) j)).
Proof.
  intro Hs. split; [|split].
  - intros r w' H.
    destruct (parse_departure_data_scheduled_time _ _ _ _ _ _ _ _ _ H) as (t & Hl & Ht).
    rewrite Hl, (Ht Hs). split; [reflexivity|apply strftime_HM_shape].
  - intro Hwt. apply parse_departure_data_total, Hwt.
  - intro Hf. rewrite (process_departure_unfold _ _ _ _ _ _ _ Hf).
    destruct (basic_departure_missing_timestamp E f "1" w Hs) as (b & -> & Hb).
    destruct (PtvApiService.parse_departure_data E (VDict f) routes directions runs
                disruptions {| ticks := S (ticks w); draws := S (draws w) |})
      as [[e|x] w2] eqn:Hp.
    + destruct (parse_departure_data_scheduled_time _ _ _ _ _ _ _ _ _ Hp)
        as (t & Hl & Ht).
      specialize (Ht Hs). cbn [ticks] in Ht. subst t.
      exists (dict_update b e), true, w2, (strftime_HM (clock E (S (ticks w)))).
      split; [reflexivity|]. split.
      * rewrite lookup_dict_update, Hl; [reflexivity|].
        rewrite (parse_departure_data_keys _ _ _ _ _ _ _ _ _ Hp).
        apply departure_keys_NoDup.
      * split; [apply strftime_HM_shape|reflexivity].
    + exists b, false, w2,
        (strftime_HM (add_minutes (clock E (ticks w)) (15 + dice E (draws w) mod 106))).
      split; [reflexivity|]. split; [exact Hb|]. split; [apply strftime_HM_shape|].
      exists (15 + dice E (draws w) mod 106). split; [|reflexivity].
      pose proof (Nat.mod_upper_bound (dice E (draws w)) 106). lia.
Qed.

Lemma missing_timestamp_fallback_witness :
  truthy (dict_get (fields_of record_without_timestamp) "scheduled_departure_utc" VNone)
  = false
  /\ exists d enhanced w' s,
       PtvApiService.process_departure sample_env no_mapping no_mapping
         runs_null_vehicle no_mapping record_without_timestamp start
       = (Ok (PtvApiService.Kept d enhanced), w')
       /\ lookup "scheduled_time" d = Some (VStr s)
       /\ is_HHMM s = true
       /\ if enhanced then s = strftime_HM (clock sample_env (S (ticks start)))
          else exists j, 15 <= j <= 120
                         /\ s = strftime_HM (add_minutes (clock sample_env (ticks start)) j).
Proof.
  split; [reflexivity|].
  apply (missing_timestamp_fallback sample_env no_mapping no_mapping runs_null_vehicle
           no_mapping
           [("platform_number", VStr "1"); ("direction_id", VStr "1")] start);
    reflexivity.
Defined.

(** *** The order of the keys and the sort *)

Lemma leb_keys_trans a : forall b c, leb_keys a b -> leb_keys b c -> leb_keys a c.
Proof.
  unfold leb_keys, String.leb.
  induction a as [|x a IH]; intros [|y b] [|z c]; simpl; try congruence.
  unfold Ascii.compare.
  destruct (N.compare_spec (N_of_ascii x) (N_of_ascii y)) as [Hxy|Hxy|Hxy];
    destruct (N.compare_spec (N_of_ascii y) (N_of_ascii z)) as [Hyz|Hyz|Hyz];
    destruct (N.compare_spec (N_of_ascii x) (N_of_ascii z)) as [Hxz|Hxz|Hxz];
    try congruence; try lia.
  apply IH.
Qed.

Lemma insert_by_key_perm k x l :
  Permutation (insert_by_key k x l) ((k, x) :: l).
Proof.
  induction l as [|[k' y] l IH]; simpl; [reflexivity|].
  destruct (String.leb k k'); [reflexivity|].
  rewrite IH. apply perm_swap.
Qed.

Lemma stable_sort_perm l : Permutation (stable_sort l) l.
Proof.
  induction l as [|[k x] l IH]; simpl; [reflexivity|].
  rewrite insert_by_key_perm. constructor. exact IH.
Qed.

Lemma insert_by_key_sorted k x l :
  Sorted (fun a b => leb_keys (fst a) (fst b)) l ->
  Sorted (fun a b => leb_keys (fst a) (fst b)) (insert_by_key k x l).
Proof.
  induction l as [|[k' y] l IH]; simpl; intro H.
  - repeat constructor.
  - destruct (String.leb k k') eqn:Hle.
    + constructor; [exact H|]. constructor. exact Hle.
    + inversion H as [|? ? Hs Hh]; subst. constructor; [apply IH, Hs|].
      assert (Hk : leb_keys k' k).
      { destruct (String.leb_total k k') as [Ht|Ht]; [congruence|exact Ht]. }
      destruct l as [|[k2 z] l]; simpl.
      * constructor. exact Hk.
      * destruct (String.leb k k2); constructor; [exact Hk|].
        inversion Hh; subst. assumption.
Qed.

Lemma stable_sort_sorted l :
  Sorted (fun a b => leb_keys (fst a) (fst b)) (stable_sort l).
Proof.
  induction l as [|[k x] l IH]; simpl; [constructor|].
  apply insert_by_key_sorted, IH.
Qed.

Lemma sorted_keys (l : list (string * dict)) :
  Sorted (fun a b => leb_keys (fst a) (fst b)) l -> Sorted leb_keys (map fst l).
Proof.
  induction 1 as [|kd rest _ IH Hh]; cbn [map]; constructor; [exact IH|].
  destruct Hh; cbn [map]; constructor. assumption.
Qed.

Lemma with_keys_spec l : forall ks,
  with_keys l = Ok ks ->
  map snd ks = l /\ Forall (fun kd => lookup "scheduled_time" (snd kd) = Some (VStr (fst kd))) ks.
Proof.
  induction l as [|d l IH]; simpl; intros ks H.
  - inversion H. split; constructor.
  - unfold sort_key in H.
    destruct (lookup "scheduled_time" d) as [[| | |s| | |]|] eqn:Hl; try discriminate H.
    destruct (with_keys l) as [ks'|] eqn:Hk; [|discriminate H].
    inversion H; subst. destruct (IH ks' eq_refl) as [Hm Hf].
    split; [simpl; f_equal; exact Hm|]. constructor; [exact Hl|exact Hf].
Qed.

(** A sorted list carries its keys in ascending order, and holds the items
    it was given. *)
Lemma sort_by_scheduled_time_spec l out :
  sort_by_scheduled_time l = Ok out ->
  Permutation out l
  /\ exists times,
       map (lookup "scheduled_time") out = map (fun s => Some (VStr s)) times
       /\ StronglySorted leb_keys times.
Proof.
  unfold sort_by_scheduled_time.
  destruct (with_keys l) as [ks|] eqn:Hk; [|discriminate]. intro H. inversion H; subst.
  destruct (with_keys_spec _ _ Hk) as [Hm Hf]. split.
  - rewrite <- Hm. apply Permutation_map, stable_sort_perm.
  - exists (map fst (stable_sort ks)). split.
    + assert (Hf' : Forall (fun kd => lookup "scheduled_time" (snd kd)
                                      = Some (VStr (fst kd))) (stable_sort ks)).
      { eapply Permutation_Forall; [symmetry; apply stable_sort_perm|exact Hf]. }
      clear - Hf'. induction Hf' as [|kd rest Hkd _ IH]; cbn [map]; [reflexivity|].
      f_equal; [exact Hkd|exact IH].
    + apply Sorted_StronglySorted.
      * intros a b c. apply leb_keys_trans.
      * apply sorted_keys, stable_sort_sorted.
Qed.

(** *** The platform filter *)

Lemma str_of_Z_is_1 z : String.eqb (str_of_Z z) "1" = Z.eqb z 1.
Proof.
  destruct (Z.eqb_spec z 1) as [->|Hz]; [reflexivity|].
  apply String.eqb_neq. intro H. apply Hz. unfold str_of_Z in H.
  assert (Hi : NilZero.int_of_string (NilZero.string_of_int (Z.to_int z))
               = Some (Decimal.Pos (Decimal.D1 Decimal.Nil)))
    by (rewrite H; reflexivity).
  rewrite NilZero.isi in Hi.
  - inversion Hi as [Hd]. rewrite <- (DecimalZ.of_to z), Hd. reflexivity.
  - destruct z; simpl; try discriminate;
      intro Hp; inversion Hp as [Hn]; exact (DecimalPos.Unsigned.to_uint_nonnil _ Hn).
  - destruct z; simpl; try discriminate;
      intro Hp; inversion Hp as [Hn]; exact (DecimalPos.Unsigned.to_uint_nonnil _ Hn).
Qed.

Lemma has_char_append c a b : has_char c (a ++ b) = has_char c a || has_char c b.
Proof.
  induction a as [|x a IH]; cbn [append has_char]; [reflexivity|].
  rewrite IH. apply orb_assoc.
Qed.

(** The [repr] of a float has a point or an exponent: it is no integer. *)
Lemma repr_float_is_not_1 x : String.eqb (repr_float x) "1" = false.
Proof.
  apply String.eqb_neq. intro H.
  assert (Hc : has_char "." (repr_float x) || has_char "e" (repr_float x) = true).
  { destruct x as [i f|i f e]; unfold repr_float.
    - rewrite !has_char_append. cbn [has_char Ascii.eqb Bool.eqb].
      rewrite orb_true_r. reflexivity.
    - apply orb_true_iff. right. rewrite !has_char_append.
      destruct e; unfold repr_exponent; rewrite has_char_append;
        cbn [has_char Ascii.eqb Bool.eqb]; rewrite !orb_true_r; reflexivity. }
  rewrite H in Hc. discriminate Hc.
Qed.

(** The test of the fetcher admits the string 1 and the number 1, and
    nothing else: a float 1.0 reads [1.0] and is passed over. *)
Lemma passes_filter_spec departure : passes_filter departure = platform_is_1 departure.
Proof.
  destruct departure as [|b|z|s|l|f|x]; try reflexivity.
  unfold passes_filter, platform_is_1. cbn [py_get]. unfold dict_get.
  destruct (lookup "platform_number" f) as [[|b|z|s|l|d|x]|]; try reflexivity.
  - destruct b; reflexivity.
  - apply str_of_Z_is_1.
  - apply repr_float_is_not_1.
Qed.

Lemma basic_departure_raises E f platform w e w' :
  PtvApiService.basic_departure E (VDict f) platform w = (Raise e, w') ->
  timestamp_ok E (dict_get f "scheduled_departure_utc" VNone) = false.
Proof.
  unfold PtvApiService.basic_departure, timestamp_ok. unfold_m. cbn [py_get].
  destruct (truthy (dict_get f "scheduled_departure_utc" VNone)); cbn [negb orb].
  - destruct (PtvApiService.to_local E (dict_get f "scheduled_departure_utc" VNone));
      [discriminate|reflexivity].
  - unfold PtvApiService.get_melbourne_time, PtvApiService.randint_15_120.
    cbv beta iota zeta. discriminate.
Qed.

Lemma basic_departure_returns E f platform w b w' :
  PtvApiService.basic_departure E (VDict f) platform w = (Ok b, w') ->
  timestamp_ok E (dict_get f "scheduled_departure_utc" VNone) = true.
Proof.
  intro H. apply basic_departure_inv in H. destruct H as (f' & t & Hf & Ht & _).
  inversion Hf; subst f'. unfold timestamp_ok.
  destruct (truthy (dict_get f "scheduled_departure_utc" VNone)); [|reflexivity].
  destruct Ht as [-> _]. reflexivity.
Qed.

(** On a record that is a dict the loop body never raises. *)
Lemma process_departure_dict E routes directions runs disruptions f w :
  exists o w',
    PtvApiService.process_departure E routes directions runs disruptions (VDict f) w
    = (Ok o, w')
    /\ treated E (VDict f) o.
Proof.
  destruct (passes_filter (VDict f)) eqn:Hf.
  - rewrite (process_departure_unfold _ _ _ _ _ _ _ Hf).
    rewrite passes_filter_spec in Hf.
    destruct (PtvApiService.basic_departure E (VDict f) "1" w) as [[b|e] w1] eqn:Hb.
    + apply basic_departure_returns in Hb.
      destruct (PtvApiService.parse_departure_data E (VDict f) routes directions runs
                  disruptions w1) as [[en|e] w2];
        eexists _, _; (split; [reflexivity|]); split; assumption.
    + apply basic_departure_raises in Hb.
      eexists _, _; (split; [reflexivity|]); split; assumption.
  - exists PtvApiService.Skipped, w. split.
    + unfold passes_filter in Hf. cbn [py_get] in Hf.
      unfold PtvApiService.process_departure. unfold_m. cbn [py_get].
      rewrite Hf. reflexivity.
    + rewrite passes_filter_spec in Hf. exact Hf.
Qed.

(** The records the loop keeps carry a string under [scheduled_time], so
    that the sort of the fetcher compares strings only. *)
Lemma process_departure_kept_key E routes directions runs disruptions departure w d en w' :
  PtvApiService.process_departure E routes directions runs disruptions departure w
  = (Ok (PtvApiService.Kept d en), w') ->
  exists s, lookup "scheduled_time" d = Some (VStr s).
Proof.
  destruct (passes_filter departure) eqn:Hf.
  - rewrite (process_departure_unfold _ _ _ _ _ _ _ Hf).
    destruct (PtvApiService.basic_departure E departure "1" w) as [[b|e] w1] eqn:Hb;
      [|discriminate].
    assert (Hbs : exists s, lookup "scheduled_time" b = Some (VStr s)).
    { apply basic_departure_inv in Hb. destruct Hb as (f & t & _ & _ & ->).
      eexists. rewrite set_live_time_lookup by discriminate. reflexivity. }
    destruct (PtvApiService.parse_departure_data E departure routes directions runs
                disruptions w1) as [[e|e] w2] eqn:Hp; intro H; inversion H; subst.
    + destruct (parse_departure_data_scheduled_time _ _ _ _ _ _ _ _ _ Hp) as (t & Hl & _).
      exists (strftime_HM t). rewrite lookup_dict_update, Hl; [reflexivity|].
      rewrite (parse_departure_data_keys _ _ _ _ _ _ _ _ _ Hp).
      apply departure_keys_NoDup.
    + exact Hbs.
  - unfold passes_filter in Hf. unfold PtvApiService.process_departure. unfold_m.
    destruct (py_get departure "platform_number" (VStr "")) as [p|e]; [|discriminate].
    rewrite Hf. discriminate.
Qed.

Lemma for_each_kept_keys E routes directions runs disruptions raws : forall w outs w',
  for_each (PtvApiService.process_departure E routes directions runs disruptions)
    raws w = (Ok outs, w') ->
  Forall (fun d => exists s, lookup "scheduled_time" d = Some (VStr s))
    (PtvApiService.kept outs).
Proof.
  induction raws as [|d raws IH]; cbn [for_each]; unfold bind, ret; intros w outs w' H.
  - inversion H. constructor.
  - destruct (PtvApiService.process_departure E routes directions runs disruptions d w)
      as [[o|e] w1] eqn:Ho; [|discriminate].
    destruct (for_each (PtvApiService.process_departure E routes directions runs
                          disruptions) raws w1) as [[os|e] w2] eqn:Hr; [|discriminate].
    inversion H; subst. specialize (IH _ _ _ Hr).
    destruct o as [| |kd en]; cbn [PtvApiService.kept]; try exact IH.
    constructor; [|exact IH]. eapply process_departure_kept_key, Ho.
Qed.

Lemma sort_by_scheduled_time_total l :
  Forall (fun d => exists s, lookup "scheduled_time" d = Some (VStr s)) l ->
  exists out, sort_by_scheduled_time l = Ok out.
Proof.
  intro H. unfold sort_by_scheduled_time.
  assert (Hk : exists ks, with_keys l = Ok ks).
  { induction H as [|d l [s Hs] _ [ks IH]]; cbn [with_keys]; [eauto|].
    unfold sort_key. rewrite Hs, IH. eauto. }
  destruct Hk as [ks ->]. eauto.
Qed.

(** The loop of the fetcher over records that are dicts. *)
Lemma for_each_process_departure E routes directions runs disruptions raws :
  Forall (fun d => is_dict d = true) raws ->
  forall w, exists outs w',
    for_each (PtvApiService.process_departure E routes directions runs disruptions)
      raws w = (Ok outs, w')
    /\ Forall2 (treated E) raws outs.
Proof.
  induction 1 as [|d raws Hd _ IH]; intro w.
  - exists [], w. split; [reflexivity|constructor].
  - destruct d as [| | | | |f|]; try discriminate Hd.
    destruct (process_departure_dict E routes directions runs disruptions f w)
      as (o & w1 & Ho & Ht).
    destruct (IH w1) as (outs & w2 & Hrest & Hall).
    exists (o :: outs), w2. cbn [for_each]. unfold bind, ret. rewrite Ho, Hrest.
    split; [reflexivity|constructor; assumption].
Qed.

(** The counters of the log line: the records considered are the records
    kept and the records dropped, and an enhancement can only fail on a
    kept record. *)
Lemma loop_counters outs :
  PtvApiService.platform1_count outs
  = List.length (PtvApiService.kept outs) + PtvApiService.error_count outs
  /\ PtvApiService.enhancement_errors outs <= List.length (PtvApiService.kept outs).
Proof.
  unfold PtvApiService.platform1_count, PtvApiService.error_count,
    PtvApiService.enhancement_errors.
  induction outs as [|o outs [IH1 IH2]]; [split; reflexivity|].
  destruct o as [| |d [|]]; cbn [filter PtvApiService.kept List.length]; lia.
Qed.

(** The loop counts as considered exactly the records of platform 1. *)
Lemma treated_platform1_count E raws outs :
  Forall2 (treated E) raws outs ->
  PtvApiService.platform1_count outs = List.length (filter platform_is_1 raws).
Proof.
  unfold PtvApiService.platform1_count.
  induction 1 as [|d o raws outs Ht _ IH]; [reflexivity|].
  cbn [filter]. destruct o as [| |kd en]; cbn [treated] in Ht.
  - rewrite Ht. exact IH.
  - destruct Ht as [-> _]. cbn [List.length]. f_equal. exact IH.
  - destruct Ht as [-> _]. cbn [List.length]. f_equal. exact IH.
Qed.

(** The records handed out are the records of platform 1 that the loop
    did not drop. *)
Lemma treated_retained E raws outs :
  Forall2 (treated E) raws outs ->
  List.length (PtvApiService.kept outs) = List.length (filter (retained E) raws).
Proof.
  induction 1 as [|d o raws outs Ht _ IH]; [reflexivity|].
  cbn [filter]. unfold retained at 1.
  destruct o as [| |kd en]; cbn [treated PtvApiService.kept] in *.
  - rewrite Ht. exact IH.
  - destruct Ht as [-> ->]. exact IH.
  - destruct Ht as [-> ->]. cbn [andb List.length]. f_equal. exact IH.
Qed.

Lemma process_departure_not_dict E routes directions runs disruptions r w :
  is_dict r = false ->
  PtvApiService.process_departure E routes directions runs disruptions r w
  = (Raise AttributeError, w).
Proof. destruct r; try discriminate; reflexivity. Qed.

Lemma for_each_stray_record E routes directions runs disruptions raws : forall w,
  existsb (fun r => negb (is_dict r)) raws = true ->
  exists e w',
    for_each (PtvApiService.process_departure E routes directions runs disruptions)
      raws w = (Raise e, w').
Proof.
  induction raws as [|r raws IH]; intros w H; [discriminate|].
  cbn [existsb] in H. cbn [for_each]. unfold bind.
  destruct (is_dict r) eqn:Hr.
  - destruct r as [| | | | |f|]; try discriminate Hr.
    destruct (process_departure_dict E routes directions runs disruptions f w)
      as (o & w1 & -> & _).
    destruct (IH w1 H) as (e & w2 & ->). eauto.
  - rewrite process_departure_not_dict by exact Hr. eauto.
Qed.

(** C5 (as stated, refuted): of two raw records of platform 1, the one
    whose timestamp cannot be parsed is missing from the output; and a
    record whose platform is the float 1.0, equal to 1 as a number, is not
    in the output. *)
Lemma platform_1_record_missing_from_output :
  List.length (filter platform_is_1 [record_city_bound; record_unparseable_timestamp]) = 2
  /\ (exists d,
         PtvApiService.fetch_departures_from_ptv sample_env
           (Ok (VDict reply_with_an_unparseable_timestamp)) start = (Ok [d], start)
         /\ lookup "scheduled_time" d = Some (VStr "11:00"))
  /\ PtvApiService.fetch_departures_from_ptv sample_env
       (Ok (VDict [("departures", VList [record_float_platform])])) start
     = (Ok [], start).
Proof.
  split; [reflexivity|]. split; [eexists; vm_compute; split; reflexivity|].
  vm_compute. reflexivity.
Qed.

(** C5 (amended): the fetcher passes over exactly the records whose
    platform is neither the string 1 nor the integer 1 (a record with
    platform 2, with the float 1.0, or with no platform, is passed over),
    and counts the others as platform 1.  When the raw records are dicts,
    the output is the records of platform 1 less those the loop dropped,
    which are those whose timestamp is present and cannot be parsed; the
    output is sorted, so it is a permutation of the records kept.  When a
    raw record is not a dict the output is empty. *)
Theorem platform_filter_is_exact E d raws w :
  d <> [] ->
  dict_get d "departures" (VList []) = VList raws ->
  (Forall (fun r => is_dict r = true) raws ->
   exists outs out w',
     for_each (PtvApiService.process_departure E
                 (dict_get d "routes" (VDict [])) (dict_get d "directions" (VDict []))
                 (dict_get d "runs" (VDict [])) (dict_get d "disruptions" (VDict [])))
       raws w = (Ok outs, w')
     /\ PtvApiService.fetch_departures_from_ptv E (Ok (VDict d)) w = (Ok out, w')
     /\ Permutation out (PtvApiService.kept outs)
     /\ Forall2 (treated E) raws outs
     /\ PtvApiService.platform1_count outs = List.length (filter platform_is_1 raws)
     /\ List.length out = List.length (filter (retained E) raws))
  /\ (existsb (fun r => negb (is_dict r)) raws = true ->
      exists w',
        PtvApiService.fetch_departures_from_ptv E (Ok (VDict d)) w = (Ok [], w')).
Proof.
  intros Hd Hraws. split.
  - intro Hall.
    destruct (for_each_process_departure E (dict_get d "routes" (VDict []))
                (dict_get d "directions" (VDict [])) (dict_get d "runs" (VDict []))
                (dict_get d "disruptions" (VDict [])) raws Hall w)
      as (outs & w' & Hloop & Ht).
    destruct (sort_by_scheduled_time_total (PtvApiService.kept outs)) as [out Hsort];
      [eapply for_each_kept_keys, Hloop|].
    pose proof (sort_by_scheduled_time_spec _ _ Hsort) as [Hperm _].
    exists outs, out, w'. split; [exact Hloop|].
    split; [|split; [exact Hperm|split; [exact Ht|split]]].
    + unfold PtvApiService.fetch_departures_from_ptv. unfold_m.
      destruct d as [|kv d]; [congruence|]. cbn [truthy negb py_keys py_get].
      rewrite Hraws. cbn [py_len py_iter]. rewrite Hloop, Hsort. reflexivity.
    + eapply treated_platform1_count, Ht.
    + rewrite (Permutation_length Hperm). eapply treated_retained, Ht.
  - intro Hs. unfold PtvApiService.fetch_departures_from_ptv. unfold_m.
    destruct (negb (truthy (VDict d))); [eauto|]. cbn [py_keys py_get].
    rewrite Hraws. cbn [py_len py_iter].
    destruct (for_each_stray_record E (dict_get d "routes" (VDict []))
                (dict_get d "directions" (VDict [])) (dict_get d "runs" (VDict []))
                (dict_get d "disruptions" (VDict [])) raws w Hs) as (e & w' & ->).
    eauto.
Qed.

Lemma platform_filter_is_exact_witness :
  (exists outs out w',
      for_each (PtvApiService.process_departure sample_env
                  (VDict []) (VDict []) (VDict []) (VDict []))
        four_platforms start = (Ok outs, w')
      /\ PtvApiService.fetch_departures_from_ptv sample_env
           (Ok (VDict response_four_platforms)) start = (Ok out, w')
      /\ Permutation out (PtvApiService.kept outs)
      /\ Forall2 (treated sample_env) four_platforms outs
      /\ PtvApiService.platform1_count outs = 2
      /\ List.length out = 2)
  /\ exists w',
       PtvApiService.fetch_departures_from_ptv sample_env
         (Ok (VDict reply_with_a_stray_record)) start = (Ok [], w').
Proof.
  split.
  - apply (platform_filter_is_exact sample_env response_four_platforms four_platforms
             start).
    + discriminate.
    + reflexivity.
    + repeat constructor.
  - apply (platform_filter_is_exact sample_env reply_with_a_stray_record
             [record_city_bound; VStr "cancelled"; record_of_run_7] start).
    + discriminate.
    + reflexivity.
    + reflexivity.
Defined.

(** The four records of the example: the string 1 and the number 1 are
    kept, platform 2 and the record without a platform are passed over. *)
Example four_platforms_outcomes :
  exists a b w',
    for_each (PtvApiService.process_departure sample_env
                (VDict []) (VDict []) (VDict []) (VDict []))
      four_platforms start
    = (Ok [ PtvApiService.Kept a true; PtvApiService.Skipped;
            PtvApiService.Kept b true; PtvApiService.Skipped ], w')
    /\ lookup "platform" a = Some (VStr "1")
    /\ lookup "platform" b = Some (VInt 1).
Proof. eexists _, _, _. vm_compute. repeat split. Qed.

(** The float 1.0 reads [1.0]: the record is passed over. *)
Example float_platform_is_passed_over :
  py_get record_float_platform "platform_number" (VStr "")
  = Ok (VFloat (Decimal.Decimal (Decimal.Pos (Decimal.D1 Decimal.Nil))
                  (Decimal.D0 Decimal.Nil)))
  /\ py_str (VFloat (Decimal.Decimal (Decimal.Pos (Decimal.D1 Decimal.Nil))
                       (Decimal.D0 Decimal.Nil))) = "1.0"
  /\ PtvApiService.process_departure sample_env no_mapping no_mapping no_mapping
       no_mapping record_float_platform start = (Ok PtvApiService.Skipped, start).
Proof. repeat split. Qed.

(** C7: the fetcher always returns, and the [scheduled_time] of the
    departures it returns are strings in ascending lexicographic order; the
    three records at 08:15, 07:05 and 07:50 come out as 07:05, 07:50, 08:15. *)
Theorem fetcher_output_is_sorted E response w :
  (exists out w',
      PtvApiService.fetch_departures_from_ptv E response w = (Ok out, w')
      /\ exists times,
           map (lookup "scheduled_time") out = map (fun s => Some (VStr s)) times
           /\ StronglySorted leb_keys times)
  /\ exists out w',
       PtvApiService.fetch_departures_from_ptv sample_env (Ok response_three_times)
         start = (Ok out, w')
       /\ map (lookup "scheduled_time") out
          = [Some (VStr "07:05"); Some (VStr "07:50"); Some (VStr "08:15")].
Proof.
  split; [|eexists _, _; vm_compute; split; reflexivity].
  assert (Hnil : exists times,
             map (lookup "scheduled_time") (@nil dict)
             = map (fun s => Some (VStr s)) times
             /\ StronglySorted leb_keys times)
    by (exists []; split; [reflexivity|constructor]).
  unfold PtvApiService.fetch_departures_from_ptv, try_catch.
  match goal with
  | |- context [match ?m w with _ => _ end] => destruct (m w) as [[out|e] w'] eqn:H
  end; [|exists [], w'; split; [reflexivity|exact Hnil]].
  exists out, w'. split; [reflexivity|].
  unfold_m. destruct response as [data|e]; [|discriminate H].
  destruct (negb (truthy data)); [inversion H; subst; exact Hnil|].
  do 8 destruct_result H.
  destruct (for_each _ _ w) as [[outs|e] w1]; [|discriminate H].
  destruct (sort_by_scheduled_time (PtvApiService.kept outs)) as [sorted|e] eqn:Hs;
    [|discriminate H].
  inversion H; subst. apply (sort_by_scheduled_time_spec _ _ Hs).
Qed.

(** *** The refresh loop *)

Lemma api_cycle E report fetch c w :
  cycle_contract E (fetch w) c
    (fst (PtvApiService.update_cache_iteration E report fetch c w)).
Proof.
  unfold PtvApiService.update_cache_iteration, cycle_contract.
  destruct (fetch w) as [[[|d l]|e] w1]; cbn.
  - repeat split; repeat constructor.
  - destruct (report (d :: l) _) as [[u|e] w3]; cbn; split; reflexivity.
  - repeat split; repeat constructor.
Qed.

Lemma scraper_cycle E fetch c w :
  cycle_contract E (fetch w) c (fst (Scraper.update_cache_iteration E fetch c w)).
Proof.
  unfold Scraper.update_cache_iteration, cycle_contract.
  destruct (fetch w) as [[[|d l]|e] w1]; cbn.
  - repeat split; repeat constructor.
  - split; reflexivity.
  - repeat split; repeat constructor.
Qed.

(** C2: in both programs, one pass of the refresh loop around any call of
    the fetcher clears [updating] at its end; after a non-empty result it
    replaces the list first and then sets [last_updated] to the local time;
    after an empty result or an exception it leaves the list and
    [last_updated] as they were; and after every pass of the loop
    [updating] is false. *)
Theorem refresh_cycle_updates_cache E report fetch c w :
  cycle_contract E (fetch w) c
    (fst (PtvApiService.update_cache_iteration E report fetch c w))
  /\ cycle_contract E (fetch w) c (fst (Scraper.update_cache_iteration E fetch c w))
  /\ (forall fetches n,
         updating (snd (fst (PtvApiService.update_cache E report fetches (S n) c w)))
         = false
         /\ updating (snd (fst (Scraper.update_cache E fetches (S n) c w))) = false).
Proof.
  split; [apply api_cycle|]. split; [apply scraper_cycle|].
  intros fetches n. split.
  - cbn [PtvApiService.update_cache].
    destruct (PtvApiService.update_cache E report fetches n c w) as [[cycles c'] w'].
    pose proof (api_cycle E report (fetches n) c' w') as [H _].
    destruct (PtvApiService.update_cache_iteration E report (fetches n) c' w').
    exact H.
  - cbn [Scraper.update_cache].
    destruct (Scraper.update_cache E fetches n c w) as [[cycles c'] w'].
    pose proof (scraper_cycle E (fetches n) c' w') as [H _].
    destruct (Scraper.update_cache_iteration E (fetches n) c' w').
    exact H.
Qed.

(** A reader of [GET /api/departures] between the writes of a pass whose
    fetch raised sees the list and the timestamp of the previous snapshot. *)
Lemma readers_keep_snapshot_on_failure E e w1 c y :
  cycle_contract E (Raise e, w1) c y ->
  Forall (fun c' => fst (get_departures c') = 200
                    /\ lookup "departures" (snd (get_departures c'))
                       = lookup "departures" (snd (get_departures c))
                    /\ lookup "lastUpdated" (snd (get_departures c'))
                       = lookup "lastUpdated" (snd (get_departures c)))
    (writes y).
Proof.
  intros (_ & Hw & _). eapply Forall_impl; [|exact Hw].
  intros c' [Hd Hl]. unfold get_departures. cbn. rewrite Hd, Hl. auto.
Qed.

(** C8 (as stated, refuted): the health endpoint of the scrape variant
    answers 200 when the upstream cannot be reached. *)
Lemma scraper_health_check_makes_no_probe :
  ~ health_contract (fun _ => Scraper.health_check).
Proof.
  intro H. specialize (H (Unreachable "Connection refused")).
  destruct H as [H _]. discriminate H.
Qed.

(** C8 (amended): the health endpoint of the API variant answers 200 with
    the status of the upstream when the probe succeeds and 500 with the
    message of the error when it fails; the health endpoint of the scrape
    variant makes no probe and always answers 200 with the status healthy. *)
Theorem health_check_by_variant :
  health_contract PtvApiService.health_check
  /\ fst Scraper.health_check = 200
  /\ lookup "status" (snd Scraper.health_check) = Some (VStr "healthy").
Proof.
  split; [|split; reflexivity]. intros [body|error]; split; reflexivity.
Qed.

(** *** The scrape *)

Lemma extract_departure_data_spec E k w d w' :
  Scraper.extract_departure_data E k w = (Ok (Some d), w') -> not_to_alamein d.
Proof.
  unfold Scraper.extract_departure_data. unfold_m. intro H.
  do 2 destruct_result H.
  destruct (str_contains "Alamein" a0) eqn:Hc; [discriminate H|].
  unfold Scraper.get_melbourne_time, PtvApiService.get_melbourne_time in H.
  inversion H; subst. exists a0. split; [reflexivity|exact Hc].
Qed.

Lemma extract_all_spec E cards : forall w,
  exists out w', Scraper.extract_all E cards w = (Ok out, w') /\ Forall not_to_alamein out.
Proof.
  induction cards as [|k cards IH]; intro w; cbn [Scraper.extract_all].
  - exists [], w. split; [reflexivity|constructor].
  - unfold bind, try_catch, ret.
    destruct (Scraper.extract_departure_data E k w) as [[[d|]|e] w1] eqn:Hk;
      destruct (IH w1) as (out & w2 & -> & Hout); eexists _, _;
      (split; [reflexivity|]); try exact Hout.
    constructor; [eapply extract_departure_data_spec, Hk|exact Hout].
Qed.

Lemma scrape_attempts_spec E browser report remaining : forall attempt w,
  exists out w',
    Scraper.scrape_attempts E browser report attempt remaining w = (Ok out, w')
    /\ Forall not_to_alamein out.
Proof.
  induction remaining as [|k IH]; intros attempt w; cbn [Scraper.scrape_attempts].
  - exists [], w. split; [reflexivity|constructor].
  - unfold bind, try_catch, lift, ret.
    destruct (browser attempt) as [cards|e]; [|apply IH].
    destruct (extract_all_spec E cards w) as (found & w1 & -> & Hfound).
    destruct found as [|d found]; [apply IH|].
    destruct (sort_by_scheduled_time (d :: found)) as [sorted|e] eqn:Hs; [|apply IH].
    destruct (report sorted w1) as [[u|e] w2]; [|apply IH].
    exists sorted, w2. split; [reflexivity|].
    destruct (sort_by_scheduled_time_spec _ _ Hs) as [Hperm _].
    eapply Permutation_Forall; [symmetry; exact Hperm|exact Hfound].
Qed.

(** C10: the scrape always returns, no departure it returns has Alamein in
    its destination, and what is extracted from a card depends on nothing
    but the texts of its time, title and live-time elements: no platform
    is read or compared. *)
Theorem scrape_excludes_alamein E browser report w :
  (exists out w',
      Scraper.scrape_departures E browser report w = (Ok out, w')
      /\ Forall not_to_alamein out)
  /\ (forall k1 k2 : Scraper.card,
         (forall c, In c read_classes -> k1 c = k2 c) ->
         Scraper.extract_departure_data E k1 w = Scraper.extract_departure_data E k2 w)
  /\ (forall k title,
         Scraper.find_element_text k "departure-card__title" = Ok title ->
         str_contains "Alamein" title = true ->
         fst (Scraper.extract_departure_data E k w) = Ok None
         \/ exists e, fst (Scraper.extract_departure_data E k w) = Raise e).
Proof.
  split; [apply scrape_attempts_spec|]. split.
  - intros k1 k2 H. unfold Scraper.extract_departure_data, Scraper.find_element_text.
    rewrite (H "departure-card__info__time__value") by (cbn; tauto).
    rewrite (H "departure-card__title") by (cbn; tauto).
    rewrite (H "DepartureTimeView__text") by (cbn; tauto). reflexivity.
  - intros k title Ht Hc. unfold Scraper.extract_departure_data. unfold_m.
    rewrite Ht.
    destruct (Scraper.find_element_text k "departure-card__info__time__value");
      [left; rewrite Hc; reflexivity|right; eexists; reflexivity].
Qed.

Lemma scrape_excludes_alamein_witness :
  (forall c, In c read_classes ->
             card_of "07:05" "Flinders Street" "1" c = card_of "07:05" "Flinders Street" "2" c)
  /\ Scraper.extract_departure_data sample_env (card_of "07:05" "Flinders Street" "1") start
     = Scraper.extract_departure_data sample_env (card_of "07:05" "Flinders Street" "2") start
  /\ fst (Scraper.extract_departure_data sample_env (card_of "07:10" "Alamein" "1") start)
     = Ok None.
Proof.
  assert (H : forall c, In c read_classes ->
                        card_of "07:05" "Flinders Street" "1" c
                        = card_of "07:05" "Flinders Street" "2" c).
  { intros c Hc. cbn in Hc. decompose [or] Hc; subst; try reflexivity. contradiction. }
  split; [exact H|].
  destruct (scrape_excludes_alamein sample_env (fun _ => Ok []) (fun _ => ret tt) start)
    as (_ & Hsame & Hskip).
  split; [exact (Hsame _ _ H)|].
  destruct (Hskip (card_of "07:10" "Alamein" "1") "Alamein" eq_refl eq_refl)
    as [Hn|[e He]]; [exact Hn|].
  vm_compute in He. discriminate He.
Defined.

(** ** Further properties of the fetcher *)

(** What a run of the fetcher that returns departures went through. *)
Lemma fetch_departures_from_ptv_inv E response w out w' :
  PtvApiService.fetch_departures_from_ptv E response w = (Ok out, w') ->
  out = []
  \/ exists d raw_departures items outs,
       response = Ok (VDict d)
       /\ dict_get d "departures" (VList []) = raw_departures
       /\ py_iter raw_departures = Ok items
       /\ for_each (PtvApiService.process_departure E
                      (dict_get d "routes" (VDict [])) (dict_get d "directions" (VDict []))
                      (dict_get d "runs" (VDict [])) (dict_get d "disruptions" (VDict [])))
            items w = (Ok outs, w')
       /\ sort_by_scheduled_time (PtvApiService.kept outs) = Ok out.
Proof.
  unfold PtvApiService.fetch_departures_from_ptv, try_catch.
  match goal with
  | |- context [match ?m w with _ => _ end] => destruct (m w) as [[out0|e] w0] eqn:H
  end; intro H0; inversion H0; subst; [|left; reflexivity].
  unfold_m. destruct response as [data|e]; [|discriminate H].
  destruct (negb (truthy data)); [inversion H; left; reflexivity|].
  destruct data as [| | | | |d|]; try discriminate H. cbn [py_keys py_get] in H.
  do 2 destruct_result H.
  destruct (for_each _ a0 w) as [[outs|e] w1] eqn:Hloop; [|discriminate H].
  destruct (sort_by_scheduled_time (PtvApiService.kept outs)) as [sorted|e] eqn:Hs;
    [|discriminate H].
  inversion H; subst. right.
  exists d, (dict_get d "departures" (VList [])), a0, outs. auto.
Qed.

(** X1: the fetcher answers the empty list, and never raises, when the
    call to the upstream raised, when the reply is empty or is not an
    object, when its [departures] is not a list, and when one of the raw
    records is not an object: a single stray record costs the whole reply. *)
Theorem fetch_failure_yields_empty E :
  (forall e w, PtvApiService.fetch_departures_from_ptv E (Raise e) w = (Ok [], w))
  /\ (forall data w,
         truthy data = false \/ is_dict data = false ->
         PtvApiService.fetch_departures_from_ptv E (Ok data) w = (Ok [], w))
  /\ (forall d w,
         is_list (dict_get d "departures" (VList [])) = false ->
         PtvApiService.fetch_departures_from_ptv E (Ok (VDict d)) w = (Ok [], w))
  /\ (forall d raws w,
         dict_get d "departures" (VList []) = VList raws ->
         existsb (fun r => negb (is_dict r)) raws = true ->
         exists w', PtvApiService.fetch_departures_from_ptv E (Ok (VDict d)) w
                    = (Ok [], w')).
Proof.
  split; [reflexivity|]. split; [|split].
  - intros data w [H|H]; unfold PtvApiService.fetch_departures_from_ptv; unfold_m.
    + rewrite H. reflexivity.
    + destruct (negb (truthy data)); [reflexivity|].
      destruct data; try discriminate H; reflexivity.
  - intros d w H. unfold PtvApiService.fetch_departures_from_ptv. unfold_m.
    destruct (negb (truthy (VDict d))); [reflexivity|]. cbn [py_keys py_get].
    destruct (dict_get d "departures" (VList [])) as [|b|z|s|l|f|];
      try discriminate H; try reflexivity.
    + destruct s; reflexivity.
    + destruct f as [|[k v] f]; reflexivity.
  - intros d raws w Hd Hs. unfold PtvApiService.fetch_departures_from_ptv. unfold_m.
    destruct (negb (truthy (VDict d))); [eauto|]. cbn [py_keys py_get].
    rewrite Hd. cbn [py_len py_iter].
    destruct (for_each_stray_record E (dict_get d "routes" (VDict []))
                (dict_get d "directions" (VDict [])) (dict_get d "runs" (VDict []))
                (dict_get d "disruptions" (VDict [])) raws w Hs) as (e & w' & ->).
    eauto.
Qed.

Lemma fetch_failure_yields_empty_witness :
  PtvApiService.fetch_departures_from_ptv sample_env (Ok (VList [record_city_bound]))
    start = (Ok [], start)
  /\ PtvApiService.fetch_departures_from_ptv sample_env
       (Ok (VDict [("departures", VStr "none")])) start = (Ok [], start)
  /\ exists w',
       PtvApiService.fetch_departures_from_ptv sample_env
         (Ok (VDict reply_with_a_stray_record)) start = (Ok [], w').
Proof.
  destruct (fetch_failure_yields_empty sample_env) as (_ & Hdata & Hlist & Hstray).
  split; [apply Hdata; right; reflexivity|].
  split; [apply Hlist; reflexivity|].
  apply (Hstray reply_with_a_stray_record
           [record_city_bound; VStr "cancelled"; record_of_run_7] start); reflexivity.
Defined.

Lemma basic_departure_keys E departure platform w b w' :
  PtvApiService.basic_departure E departure platform w = (Ok b, w') ->
  map fst b = departure_keys
  /\ lookup "platform" b = Some (VStr platform)
  /\ exists t, lookup "scheduled_time" b = Some (VStr (strftime_HM t)).
Proof.
  intro H. apply basic_departure_inv in H. destruct H as (f & t & _ & _ & ->).
  split; [|split].
  - rewrite set_live_time_keys; [reflexivity|]. cbn. tauto.
  - rewrite set_live_time_lookup by discriminate. reflexivity.
  - exists t. rewrite set_live_time_lookup by discriminate. reflexivity.
Qed.

(** Every record the loop keeps is well formed. *)
Lemma process_departure_kept_shape
  E routes directions runs disruptions departure w d en w' :
  PtvApiService.process_departure E routes directions runs disruptions departure w
  = (Ok (PtvApiService.Kept d en), w') ->
  well_formed_departure d.
Proof.
  destruct (passes_filter departure) eqn:Hf.
  - rewrite (process_departure_unfold _ _ _ _ _ _ _ Hf).
    destruct (passes_filter_dict _ Hf) as (f & p & -> & Hl & Hp1).
    destruct (PtvApiService.basic_departure E (VDict f) "1" w) as [[b|e] w1] eqn:Hb;
      [|discriminate].
    destruct (basic_departure_keys _ _ _ _ _ _ Hb) as (Hbk & Hbp & tb & Hbt).
    destruct (PtvApiService.parse_departure_data E (VDict f) routes directions runs
                disruptions w1) as [[e|e] w2] eqn:Hp; intro H; inversion H; subst.
    + pose proof (parse_departure_data_keys _ _ _ _ _ _ _ _ _ Hp) as Hek.
      destruct (parse_departure_data_scheduled_time _ _ _ _ _ _ _ _ _ Hp) as (t & Ht & _).
      assert (Hu : forall k, lookup k (dict_update b e)
                             = match lookup k e with
                               | Some v => Some v
                               | None => lookup k b
                               end).
      { intro k. apply lookup_dict_update. rewrite Hek. apply departure_keys_NoDup. }
      split; [|split].
      * rewrite map_fst_dict_update; [exact Hbk|]. rewrite Hek, Hbk. auto.
      * exists (strftime_HM t). rewrite Hu, Ht. split; [reflexivity|apply strftime_HM_shape].
      * exists p. split; [|exact Hp1]. rewrite Hu.
        apply parse_departure_data_inv in Hp.
        destruct Hp as (f' & ri & di & ui & t' & dest & veh & dis & rn & dn & Hp).
        destruct Hp as (Hff & _ & _ & _ & _ & _ & _ & _ & _ & _ & ->).
        inversion Hff; subst f'.
        rewrite set_live_time_lookup by discriminate. cbn [lookup String.eqb Ascii.eqb Bool.eqb].
        unfold dict_get. rewrite Hl. reflexivity.
    + split; [exact Hbk|]. split.
      * exists (strftime_HM tb). split; [exact Hbt|apply strftime_HM_shape].
      * exists (VStr "1"). split; [exact Hbp|reflexivity].
  - unfold passes_filter in Hf. unfold PtvApiService.process_departure. unfold_m.
    destruct (py_get departure "platform_number" (VStr "")) as [p|e]; [|discriminate].
    rewrite Hf. discriminate.
Qed.

Lemma for_each_kept_shape E routes directions runs disruptions raws : forall w outs w',
  for_each (PtvApiService.process_departure E routes directions runs disruptions)
    raws w = (Ok outs, w') ->
  Forall well_formed_departure (PtvApiService.kept outs).
Proof.
  induction raws as [|d raws IH]; cbn [for_each]; unfold bind, ret; intros w outs w' H.
  - inversion H. constructor.
  - destruct (PtvApiService.process_departure E routes directions runs disruptions d w)
      as [[o|e] w1] eqn:Ho; [|discriminate].
    destruct (for_each (PtvApiService.process_departure E routes directions runs
                          disruptions) raws w1) as [[os|e] w2] eqn:Hr; [|discriminate].
    inversion H; subst. specialize (IH _ _ _ Hr).
    destruct o as [| |kd en]; cbn [PtvApiService.kept]; try exact IH.
    constructor; [|exact IH]. eapply process_departure_kept_shape, Ho.
Qed.

(** X2: the fetcher always returns, and every departure it returns has
    the nine keys in their order, an HH:MM [scheduled_time], and a platform
    that reads 1 as a string. *)
Theorem fetched_departures_are_well_formed E response w :
  exists out w',
    PtvApiService.fetch_departures_from_ptv E response w = (Ok out, w')
    /\ Forall well_formed_departure out.
Proof.
  destruct (PtvApiService.fetch_departures_from_ptv E response w) as [[out|e] w'] eqn:H.
  - exists out, w'. split; [reflexivity|].
    destruct (fetch_departures_from_ptv_inv _ _ _ _ _ H)
      as [->|(d & raw & items & outs & _ & _ & _ & Hloop & Hs)]; [constructor|].
    eapply Permutation_Forall.
    + symmetry. apply (sort_by_scheduled_time_spec _ _ Hs).
    + eapply for_each_kept_shape, Hloop.
  - unfold PtvApiService.fetch_departures_from_ptv, try_catch in H.
    match type of H with
    | context [match ?m w with _ => _ end] => destruct (m w) as [[o|x] w0]
    end; discriminate H.
Qed.

(** *** Records that carry a timestamp *)

Section SameParser.

Variables E1 E2 : Env.
Hypothesis same_parser : forall s, fromisoformat_local E1 s = fromisoformat_local E2 s.

Lemma to_local_same v : PtvApiService.to_local E1 v = PtvApiService.to_local E2 v.
Proof. destruct v; try reflexivity. apply same_parser. Qed.

Lemma set_live_time_same d est :
  PtvApiService.set_live_time E1 d est = PtvApiService.set_live_time E2 d est.
Proof. unfold PtvApiService.set_live_time. rewrite to_local_same. reflexivity. Qed.

Ltac split_results :=
  repeat match goal with
         | |- context [match ?r with Ok _ => _ | Raise _ => _ end] => destruct r
         end.

Lemma basic_departure_timestamped f platform w :
  has_timestamp (VDict f) = true ->
  PtvApiService.basic_departure E1 (VDict f) platform w
  = PtvApiService.basic_departure E2 (VDict f) platform w
  /\ snd (PtvApiService.basic_departure E1 (VDict f) platform w) = w.
Proof.
  unfold has_timestamp. cbn [fields_of]. intro Hs.
  unfold PtvApiService.basic_departure. unfold_m. cbn [py_get]. rewrite Hs. cbn [negb].
  rewrite to_local_same. split_results; rewrite ?set_live_time_same; split; reflexivity.
Qed.

Lemma parse_departure_data_timestamped f routes directions runs disruptions w :
  has_timestamp (VDict f) = true ->
  PtvApiService.parse_departure_data E1 (VDict f) routes directions runs disruptions w
  = PtvApiService.parse_departure_data E2 (VDict f) routes directions runs disruptions w
  /\ snd (PtvApiService.parse_departure_data E1 (VDict f) routes directions runs
            disruptions w) = w.
Proof.
  unfold has_timestamp. cbn [fields_of]. intro Hs.
  unfold PtvApiService.parse_departure_data. unfold_m. cbn [py_get]. rewrite Hs.
  cbn [negb]. rewrite to_local_same.
  split_results; rewrite ?set_live_time_same; split; reflexivity.
Qed.

Lemma process_departure_timestamped routes directions runs disruptions r w :
  has_timestamp r = true ->
  PtvApiService.process_departure E1 routes directions runs disruptions r w
  = PtvApiService.process_departure E2 routes directions runs disruptions r w
  /\ snd (PtvApiService.process_departure E1 routes directions runs disruptions r w) = w.
Proof.
  intro Hs. destruct r as [| | | | |f|]; try discriminate Hs.
  destruct (passes_filter (VDict f)) eqn:Hf.
  - rewrite !(process_departure_unfold _ _ _ _ _ _ _ Hf).
    destruct (basic_departure_timestamped f "1" w Hs) as [Hb Hw]. rewrite <- Hb.
    destruct (PtvApiService.basic_departure E1 (VDict f) "1" w) as [[b|e] w1];
      cbn [snd] in Hw; subst w1; [|split; reflexivity].
    destruct (parse_departure_data_timestamped f routes directions runs disruptions w Hs)
      as [Hp Hw]. rewrite <- Hp.
    destruct (PtvApiService.parse_departure_data E1 (VDict f) routes directions runs
                disruptions w) as [[en|e] w2]; cbn [snd] in Hw; subst w2;
      split; reflexivity.
  - unfold passes_filter in Hf. cbn [py_get] in Hf.
    unfold PtvApiService.process_departure. unfold_m. cbn [py_get]. rewrite Hf.
    split; reflexivity.
Qed.

Lemma for_each_timestamped routes directions runs disruptions raws w :
  Forall (fun r => has_timestamp r = true) raws ->
  for_each (PtvApiService.process_departure E1 routes directions runs disruptions) raws w
  = for_each (PtvApiService.process_departure E2 routes directions runs disruptions) raws w
  /\ snd (for_each (PtvApiService.process_departure E1 routes directions runs
                      disruptions) raws w) = w.
Proof.
  induction 1 as [|r raws Hr _ [IH IHw]]; [cbn [for_each]; split; reflexivity|].
  cbn [for_each]. unfold bind, ret.
  destruct (process_departure_timestamped routes directions runs disruptions r w Hr)
    as [Hp Hw]. rewrite <- Hp.
  destruct (PtvApiService.process_departure E1 routes directions runs disruptions r w)
    as [[o|e] w1]; cbn [snd] in Hw; subst w1; [|split; reflexivity].
  rewrite <- IH.
  destruct (for_each (PtvApiService.process_departure E1 routes directions runs
                        disruptions) raws w) as [[os|e] w2]; cbn [snd] in IHw; subst w2;
    split; reflexivity.
Qed.

(** X3: when every raw record carries a timestamp, the fetcher reads
    neither the clock nor the random generator: it leaves the world as it
    found it, and two environments with the same parser give the same
    departures. *)
Theorem timestamped_fetch_ignores_clock d raws w :
  dict_get d "departures" (VList []) = VList raws ->
  Forall (fun r => has_timestamp r = true) raws ->
  PtvApiService.fetch_departures_from_ptv E1 (Ok (VDict d)) w
  = PtvApiService.fetch_departures_from_ptv E2 (Ok (VDict d)) w
  /\ snd (PtvApiService.fetch_departures_from_ptv E1 (Ok (VDict d)) w) = w.
Proof.
  intros Hd Hall. unfold PtvApiService.fetch_departures_from_ptv. unfold_m.
  destruct (negb (truthy (VDict d))); [split; reflexivity|].
  cbn [py_keys py_get]. rewrite Hd. cbn [py_len py_iter].
  destruct (for_each_timestamped (dict_get d "routes" (VDict []))
              (dict_get d "directions" (VDict [])) (dict_get d "runs" (VDict []))
              (dict_get d "disruptions" (VDict [])) raws w Hall) as [Hf Hw].
  rewrite <- Hf.
  destruct (for_each (PtvApiService.process_departure E1
                        (dict_get d "routes" (VDict [])) (dict_get d "directions" (VDict []))
                        (dict_get d "runs" (VDict [])) (dict_get d "disruptions" (VDict [])))
              raws w) as [[outs|e] w1]; cbn [snd] in Hw; subst w1;
    [|split; reflexivity].
  destruct (sort_by_scheduled_time (PtvApiService.kept outs)); split; reflexivity.
Qed.

End SameParser.

Lemma timestamped_fetch_ignores_clock_witness :
  PtvApiService.fetch_departures_from_ptv sample_env (Ok response_three_times) start
  = PtvApiService.fetch_departures_from_ptv later_env (Ok response_three_times) start
  /\ snd (PtvApiService.fetch_departures_from_ptv sample_env (Ok response_three_times)
            start) = start.
Proof.
  apply (timestamped_fetch_ignores_clock sample_env later_env (fun s => eq_refl)
           [("departures",
             VList [ VDict [("platform_number", VStr "1");
                            ("scheduled_departure_utc", VStr "2024-01-01T21:15:00Z")];
                     VDict [("platform_number", VStr "1");
                            ("scheduled_departure_utc", VStr "2024-01-01T20:05:00Z")];
                     VDict [("platform_number", VStr "1");
                            ("scheduled_departure_utc", VStr "2024-01-01T20:50:00Z")] ])]
           _ start eq_refl).
  repeat constructor.
Defined.

(** ** Further properties of the normaliser *)

Lemma collect_disruptions_spec l ids :
  forallb (fun kv => is_dict (snd kv)) l = true ->
  PtvApiService.collect_disruptions (VDict l) ids
  = Ok (flat_map (disruption_summary l) ids).
Proof.
  intro Hall. induction ids as [|i ids IH]; [reflexivity|].
  cbn [PtvApiService.collect_disruptions flat_map py_contains py_subscript].
  unfold has_key, disruption_summary at 1.
  destruct (lookup (py_str i) l) as [x|] eqn:Hl; [|exact IH].
  assert (Hx : is_dict x = true) by eauto using lookup_forallb.
  destruct x as [| | | | |xf|]; try discriminate. cbn [py_get fields_of].
  rewrite IH. reflexivity.
Qed.

(** X4: with a mapping of disruptions whose infos are dicts, the
    [disruptions] of the departure follow [disruption_ids] in their order:
    an id is looked up as a string (the number 102 finds the key 102), an
    id that is not a key is dropped, and a missing title or description is
    the empty string. *)
Theorem disruptions_follow_the_ids
  E f routes directions runs l ids w r w' :
  forallb (fun kv => is_dict (snd kv)) l = true ->
  lookup "disruption_ids" f = Some (VList ids) ->
  PtvApiService.parse_departure_data E (VDict f) routes directions runs (VDict l) w
    = (Ok r, w') ->
  lookup "disruptions" r = Some (VList (flat_map (disruption_summary l) ids)).
Proof.
  intros Hall Hids H. apply parse_departure_data_inv in H.
  destruct H as (f' & ri & di & ui & t & dest & veh & dis & rn & dn & H).
  destruct H as (Hf & _ & _ & _ & _ & _ & _ & Hdis & _ & _ & ->).
  rewrite set_live_time_lookup by discriminate.
  cbn [lookup String.eqb Ascii.eqb Bool.eqb]. f_equal. f_equal.
  unfold PtvApiService.disruptions_of in Hdis. cbn [py_get] in Hdis.
  unfold dict_get in Hdis. rewrite Hids in Hdis.
  destruct l as [|kv l].
  { cbn [truthy] in Hdis. inversion Hdis.
    clear. induction ids as [|i ids IH]; [reflexivity|exact IH]. }
  cbn [truthy] in Hdis.
  destruct ids as [|i ids]; [inversion Hdis; reflexivity|].
  cbn [truthy py_iter] in Hdis.
  rewrite collect_disruptions_spec in Hdis by exact Hall. inversion Hdis. reflexivity.
Qed.

Lemma disruptions_follow_the_ids_witness :
  exists r w',
    PtvApiService.parse_departure_data sample_env (VDict record_with_disruptions)
      no_mapping no_mapping no_mapping disruptions_sample start = (Ok r, w')
    /\ lookup "disruptions" r
       = Some (VList [ VDict [("title", VStr "Lift outage");
                              ("description", VStr "Platform 2")];
                       VDict [("title", VStr "Buses replace trains");
                              ("description", VStr "")] ]).
Proof.
  eexists _, _. split; [vm_compute; reflexivity|].
  apply (disruptions_follow_the_ids sample_env record_with_disruptions no_mapping
           no_mapping no_mapping
           [ ("101", VDict [("title", VStr "Buses replace trains")]);
             ("102", VDict [("title", VStr "Lift outage");
                            ("description", VStr "Platform 2")]) ]
           [VInt 102; VInt 999; VStr "101"] start _ start);
    [reflexivity|reflexivity|vm_compute; reflexivity].
Defined.

Lemma dict_get_dict_set f k k' v default :
  k <> k' -> dict_get (dict_set f k' v) k default = dict_get f k default.
Proof.
  intro H. unfold dict_get. rewrite lookup_dict_set.
  apply String.eqb_neq in H. rewrite H. reflexivity.
Qed.

Ltac split_results :=
  repeat match goal with
         | |- context [match ?r with Ok _ => _ | Raise _ => _ end] => destruct r
         end.

(** X5: [estimated_departure_utc] decides [live_time] and nothing else:
    putting any value under it changes neither whether the normaliser
    raises, nor the world, nor any other field; [live_time] is the HH:MM of
    the estimate when it is truthy and parses, and null otherwise. *)
Theorem estimated_time_touches_live_time_only
  E f v routes directions runs disruptions w :
  same_but_live_time
    (PtvApiService.parse_departure_data E (VDict f) routes directions runs disruptions w)
    (PtvApiService.parse_departure_data E
       (VDict (dict_set f "estimated_departure_utc" v)) routes directions runs
       disruptions w)
  /\ forall r w',
       PtvApiService.parse_departure_data E (VDict f) routes directions runs
         disruptions w = (Ok r, w') ->
       lookup "live_time" r
       = Some (if truthy (dict_get f "estimated_departure_utc" VNone)
               then match PtvApiService.to_local E
                            (dict_get f "estimated_departure_utc" VNone) with
                    | Ok t => VStr (strftime_HM t)
                    | Raise _ => VNone
                    end
               else VNone).
Proof.
  split.
  - unfold PtvApiService.parse_departure_data, PtvApiService.disruptions_of,
      same_but_live_time.
    unfold_m. cbn [py_get].
    rewrite !(dict_get_dict_set f _ "estimated_departure_utc") by discriminate.
    destruct (truthy (dict_get f "scheduled_departure_utc" VNone)); cbn [negb];
      unfold PtvApiService.get_melbourne_time; split_results;
      try (split; reflexivity).
    all: split; [reflexivity|]; intros k Hk;
      rewrite !set_live_time_lookup by exact Hk; reflexivity.
  - intros r w' H. apply parse_departure_data_inv in H.
    destruct H as (f' & ri & di & ui & t & dest & veh & dis & rn & dn & H).
    destruct H as (Hf & _ & _ & _ & _ & _ & _ & _ & _ & _ & ->).
    inversion Hf; subst f'. unfold PtvApiService.set_live_time.
    destruct (truthy (dict_get f "estimated_departure_utc" VNone)); [|reflexivity].
    destruct (PtvApiService.to_local E (dict_get f "estimated_departure_utc" VNone));
      reflexivity.
Qed.

Lemma estimated_time_touches_live_time_only_witness :
  exists r w',
    PtvApiService.parse_departure_data sample_env
      (VDict [("estimated_departure_utc", VStr "2024-01-01T00:07:00Z")])
      no_mapping no_mapping no_mapping no_mapping start = (Ok r, w')
    /\ lookup "live_time" r = Some (VStr "11:07").
Proof.
  destruct (PtvApiService.parse_departure_data sample_env
              (VDict [("estimated_departure_utc", VStr "2024-01-01T00:07:00Z")])
              no_mapping no_mapping no_mapping no_mapping start) as [[r|e] w'] eqn:H;
    [|vm_compute in H; discriminate H].
  exists r, w'. split; [reflexivity|].
  exact (proj2 (estimated_time_touches_live_time_only sample_env
                  [("estimated_departure_utc", VStr "2024-01-01T00:07:00Z")] VNone
                  no_mapping no_mapping no_mapping no_mapping start) r w' H).
Defined.

Lemma vehicle_of_spec run_info v :
  PtvApiService.vehicle_of run_info = Ok v ->
  v = spec_vehicle (fields_of run_info)
  /\ match lookup "vehicle_descriptor" (fields_of run_info) with
     | Some vd => is_dict vd = true
     | None => True
     end.
Proof.
  unfold PtvApiService.vehicle_of, spec_vehicle.
  destruct (PtvApiService.has_field run_info "vehicle_descriptor") as [[|]|] eqn:Hf;
    try discriminate.
  - destruct run_info as [|b|z|s|l|rf|]; try discriminate. cbn [py_subscript fields_of].
    destruct (lookup "vehicle_descriptor" rf) as [vd|]; [|discriminate].
    destruct vd as [| | | | |vf|]; try discriminate. cbn [py_get fields_of].
    intro H. inversion H. split; reflexivity.
  - apply has_field_spec in Hf. rewrite Hf. intro H. inversion H. split; [reflexivity|exact I].
Qed.

(** X6: on every successful return of the normaliser, [route_name] is the
    name the route holds, else Alamein for route 1, else Unknown; [vehicle]
    is the description of the vehicle descriptor of the run, null when the
    run has none; [at_platform] is the field of the record, false when
    absent; and a vehicle descriptor that is present is a dict. *)
Theorem remaining_fields_of_the_normaliser
  E departure routes directions runs disruptions w r w' :
  PtvApiService.parse_departure_data E departure routes directions runs disruptions w
    = (Ok r, w') ->
  let route_id := id_of departure "route_id" in
  let run := metadata runs (id_of departure "run_id") in
  lookup "route_name" r
  = Some (spec_route_name (lookup "route_name" (metadata routes route_id)) route_id)
  /\ lookup "vehicle" r = Some (spec_vehicle run)
  /\ lookup "at_platform" r
     = Some (dict_get (fields_of departure) "at_platform" (VBool false))
  /\ match lookup "vehicle_descriptor" run with
     | Some vd => is_dict vd = true
     | None => True
     end.
Proof.
  intros H route_id run. apply parse_departure_data_inv in H.
  destruct H as (f & ri & di & ui & t & dest & veh & dis & rn & dn & H).
  destruct H as (-> & Hri & _ & Hui & _ & _ & Hveh & _ & Hrn & _ & ->).
  apply lookup_info_metadata in Hri, Hui.
  apply resolve_name_spec in Hrn. apply vehicle_of_spec in Hveh.
  destruct Hveh as [Hveh Hvd]. rewrite Hui in Hveh, Hvd. rewrite Hri in Hrn.
  rewrite !set_live_time_lookup by discriminate.
  cbn [lookup String.eqb Ascii.eqb Bool.eqb fields_of].
  subst rn veh. unfold spec_route_name. fold (id_of (VDict f) "route_id").
  fold route_id. repeat split; try exact Hvd.
  destruct (lookup "route_name" (metadata routes route_id)); [reflexivity|].
  destruct (String.eqb route_id "1"); reflexivity.
Qed.

Lemma remaining_fields_of_the_normaliser_witness :
  exists r w',
    PtvApiService.parse_departure_data sample_env record_of_run_7 routes_sample
      no_mapping runs_with_vehicle no_mapping start = (Ok r, w')
    /\ lookup "route_name" r = Some (VStr "Unknown")
    /\ lookup "vehicle" r = Some (VStr "6 Car Xtrapolis")
    /\ lookup "at_platform" r = Some (VBool false).
Proof.
  destruct (PtvApiService.parse_departure_data sample_env record_of_run_7 routes_sample
              no_mapping runs_with_vehicle no_mapping start) as [[r|e] w'] eqn:H;
    [|vm_compute in H; discriminate H].
  exists r, w'. split; [reflexivity|].
  destruct (remaining_fields_of_the_normaliser sample_env record_of_run_7 routes_sample
              no_mapping runs_with_vehicle no_mapping start r w' H)
    as (Hr & Hv & Ha & _).
  repeat split; [exact Hr|exact Hv|exact Ha].
Defined.

(** X7: a run whose [vehicle_descriptor] is present but is not a dict
    (null, say) makes the normaliser raise, whatever the other inputs; the
    fetcher then keeps the basic record, without a vehicle and with the
    destination chosen from the direction id alone, so the destination name
    of the run is lost. *)
Theorem broken_vehicle_descriptor_costs_the_enrichment
  E f routes directions l rf vd disruptions w :
  lookup (id_of (VDict f) "run_id") l = Some (VDict rf) ->
  lookup "vehicle_descriptor" rf = Some vd ->
  is_dict vd = false ->
  (exists e w',
      PtvApiService.parse_departure_data E (VDict f) routes directions (VDict l)
        disruptions w = (Raise e, w'))
  /\ (passes_filter (VDict f) = true ->
      timestamp_ok E (dict_get f "scheduled_departure_utc" VNone) = true ->
      exists basic w',
        PtvApiService.process_departure E routes directions (VDict l) disruptions
          (VDict f) w = (Ok (PtvApiService.Kept basic false), w')
        /\ lookup "vehicle" basic = Some VNone
        /\ lookup "destination" basic
           = Some (VStr (if String.eqb (id_of (VDict f) "direction_id") "1"
                         then "Camberwell" else "Unknown"))).
Proof.
  intros Hrun Hvd Hnd.
  assert (Hraise : forall w0, exists e w',
             PtvApiService.parse_departure_data E (VDict f) routes directions (VDict l)
               disruptions w0 = (Raise e, w')).
  { intro w0.
    destruct (PtvApiService.parse_departure_data E (VDict f) routes directions (VDict l)
                disruptions w0) as [[r|e] w'] eqn:H; [|eauto].
    exfalso. pose proof (remaining := H). apply parse_departure_data_inv in H.
    destruct H as (f' & ri & di & ui & t & dest & veh & dis & rn & dn & H).
    destruct H as (Hf & _ & _ & Hui & _ & _ & Hveh & _).
    inversion Hf; subst f'. apply lookup_info_metadata in Hui.
    apply vehicle_of_spec in Hveh. destruct Hveh as [_ Hveh].
    rewrite Hui in Hveh. unfold metadata in Hveh. cbn [id_of] in Hrun.
    rewrite Hrun in Hveh. cbn [fields_of] in Hveh. rewrite Hvd in Hveh. congruence. }
  split; [apply Hraise|].
  intros Hf Hts. rewrite (process_departure_unfold _ _ _ _ _ _ _ Hf).
  destruct (PtvApiService.basic_departure E (VDict f) "1" w) as [[b|e] w1] eqn:Hb.
  - destruct (Hraise w1) as (e & w2 & ->). exists b, w2. split; [reflexivity|].
    apply basic_departure_inv in Hb. destruct Hb as (f' & t & Hff & _ & ->).
    inversion Hff; subst f'.
    rewrite !set_live_time_lookup by discriminate. split; reflexivity.
  - apply basic_departure_raises in Hb. congruence.
Qed.

Lemma broken_vehicle_descriptor_costs_the_enrichment_witness :
  exists basic w',
    PtvApiService.process_departure sample_env no_mapping no_mapping runs_null_vehicle
      no_mapping record_of_run_7 start = (Ok (PtvApiService.Kept basic false), w')
    /\ lookup "vehicle" basic = Some VNone
    /\ lookup "destination" basic = Some (VStr "Camberwell").
Proof.
  apply (proj2 (broken_vehicle_descriptor_costs_the_enrichment sample_env
                  [("platform_number", VInt 1); ("run_id", VInt 7); ("direction_id", VInt 1);
                   ("scheduled_departure_utc", VStr "2024-01-01T00:00:00Z")]
                  no_mapping no_mapping
                  [("7", VDict [("destination_name", VStr "Flinders Street");
                                ("vehicle_descriptor", VNone)])]
                  [("destination_name", VStr "Flinders Street");
                   ("vehicle_descriptor", VNone)]
                  VNone no_mapping start eq_refl eq_refl eq_refl));
    vm_compute; reflexivity.
Defined.

(** ** Further properties of the refresh loop *)

Lemma cycle_contract_settles E fetched c y :
  cycle_contract E fetched c y ->
  settled c ->
  settled (final_cache c y) /\ Forall stamped_means_filled (writes y).
Proof.
  unfold cycle_contract, settled, stamped_means_filled.
  intros [Hup H] [Hc Hl].
  destruct fetched as [[[|d l]|e] w1].
  - destruct H as (Hw & Hd & Ht). split.
    + split; [exact Hup|]. rewrite Ht, Hd. exact Hl.
    + eapply Forall_impl; [|exact Hw]. intros c' [Hd' Ht']. rewrite Hd', Ht'.
      destruct (last_updated c); [tauto|congruence].
  - unfold final_cache in *. rewrite H in *. cbn in *. split.
    + split; [reflexivity|]. split; [apply strftime_HM_shape|discriminate].
    + repeat constructor; cbn; try discriminate.
      destruct (last_updated c); [intros _; tauto|congruence].
  - destruct H as (Hw & Hd & Ht). split.
    + split; [exact Hup|]. rewrite Ht, Hd. exact Hl.
    + eapply Forall_impl; [|exact Hw]. intros c' [Hd' Ht']. rewrite Hd', Ht'.
      destruct (last_updated c); [tauto|congruence].
Qed.

Lemma api_loop_settled E report fetches n c w :
  settled c ->
  let '(cycles, c', _) := PtvApiService.update_cache E report fetches n c w in
  settled c' /\ Forall (fun y => Forall stamped_means_filled (writes y)) cycles.
Proof.
  intro Hc.
  induction n as [|n IH]; cbn [PtvApiService.update_cache]; [split; [exact Hc|constructor]|].
  destruct (PtvApiService.update_cache E report fetches n c w) as [[cycles c'] w'].
  destruct IH as [Hs Hall].
  pose proof (api_cycle E report (fetches n) c' w') as Hy.
  destruct (PtvApiService.update_cache_iteration E report (fetches n) c' w') as [y w''].
  cbn [fst] in Hy. destruct (cycle_contract_settles _ _ _ _ Hy Hs) as [Hs' Hw].
  split; [exact Hs'|]. apply Forall_app. split; [exact Hall|].
  constructor; [exact Hw|constructor].
Qed.

Lemma scraper_loop_settled E fetches n c w :
  settled c ->
  let '(cycles, c', _) := Scraper.update_cache E fetches n c w in
  settled c' /\ Forall (fun y => Forall stamped_means_filled (writes y)) cycles.
Proof.
  intro Hc.
  induction n as [|n IH]; cbn [Scraper.update_cache]; [split; [exact Hc|constructor]|].
  destruct (Scraper.update_cache E fetches n c w) as [[cycles c'] w'].
  destruct IH as [Hs Hall].
  pose proof (scraper_cycle E (fetches n) c' w') as Hy.
  destruct (Scraper.update_cache_iteration E (fetches n) c' w') as [y w''].
  cbn [fst] in Hy. destruct (cycle_contract_settles _ _ _ _ Hy Hs) as [Hs' Hw].
  split; [exact Hs'|]. apply Forall_app. split; [exact Hall|].
  constructor; [exact Hw|constructor].
Qed.

(** X8: in both programs, any number of passes of the refresh loop from
    a settled cache, whatever the fetches do, ends in a settled cache (flag
    down; no timestamp and an empty list, or an HH:MM timestamp and a list
    that is not empty), and at every write in between a cache that carries
    a timestamp carries departures: the list is never emptied. *)
Theorem refresh_loop_keeps_cache_settled E report fetches n c w :
  settled c ->
  (let '(cycles, c', _) := PtvApiService.update_cache E report fetches n c w in
   settled c' /\ Forall (fun y => Forall stamped_means_filled (writes y)) cycles)
  /\ (let '(cycles, c', _) := Scraper.update_cache E fetches n c w in
      settled c' /\ Forall (fun y => Forall stamped_means_filled (writes y)) cycles).
Proof.
  intro Hc. split; [apply api_loop_settled, Hc|apply scraper_loop_settled, Hc].
Qed.

Lemma refresh_loop_keeps_cache_settled_witness :
  settled initial_cache
  /\ (let '(cycles, c', _) :=
         PtvApiService.update_cache sample_env (fun _ => ret tt)
           (fun i => PtvApiService.fetch_departures_from_ptv sample_env
                       (if Nat.eqb i 1 then Ok response_three_times
                        else Raise (OtherError "Timeout")))
           3 initial_cache start in
       settled c' /\ Forall (fun y => Forall stamped_means_filled (writes y)) cycles).
Proof.
  assert (H : settled initial_cache) by (split; reflexivity).
  split; [exact H|].
  exact (proj1 (refresh_loop_keeps_cache_settled sample_env (fun _ => ret tt)
                  (fun i => PtvApiService.fetch_departures_from_ptv sample_env
                              (if Nat.eqb i 1 then Ok response_three_times
                               else Raise (OtherError "Timeout")))
                  3 initial_cache start H)).
Defined.

Lemma fetch_departures_from_ptv_returns E response w :
  exists out w', PtvApiService.fetch_departures_from_ptv E response w = (Ok out, w').
Proof.
  unfold PtvApiService.fetch_departures_from_ptv, try_catch, ret.
  match goal with
  | |- context [match ?m w with _ => _ end] => destruct (m w) as [[out|e] w']
  end; eauto.
Qed.

(** X9: a pass of the API variant around its own fetcher sleeps 60 seconds
    only when the report after a non-empty result raised, and 300 seconds
    otherwise; in particular after a call to the upstream that raised it
    sleeps 300 seconds, since the fetcher turns the exception into an empty
    list. *)
Theorem api_loop_retries_fast_only_after_a_failed_report E report response c w :
  slept (fst (PtvApiService.update_cache_iteration E report
                (PtvApiService.fetch_departures_from_ptv E response) c w))
  = api_cadence (PtvApiService.fetch_departures_from_ptv E response w) report
  /\ (forall e,
         response = Raise e ->
         slept (fst (PtvApiService.update_cache_iteration E report
                       (PtvApiService.fetch_departures_from_ptv E response) c w)) = 300).
Proof.
  assert (H : slept (fst (PtvApiService.update_cache_iteration E report
                            (PtvApiService.fetch_departures_from_ptv E response) c w))
              = api_cadence (PtvApiService.fetch_departures_from_ptv E response w) report).
  { unfold PtvApiService.update_cache_iteration, api_cadence.
    destruct (fetch_departures_from_ptv_returns E response w) as (out & w1 & ->).
    destruct out as [|d l]; [reflexivity|].
    unfold PtvApiService.get_melbourne_time.
    destruct (report (d :: l) _) as [[u|e] w3]; reflexivity. }
  split; [exact H|]. intros e ->. rewrite H. reflexivity.
Qed.

Lemma api_loop_retries_fast_only_after_a_failed_report_witness :
  slept (fst (PtvApiService.update_cache_iteration sample_env failing_report
                (PtvApiService.fetch_departures_from_ptv sample_env
                   (Raise (OtherError "Timeout"))) initial_cache start)) = 300
  /\ slept (fst (PtvApiService.update_cache_iteration sample_env failing_report
                   (PtvApiService.fetch_departures_from_ptv sample_env
                      (Ok response_three_times)) initial_cache start)) = 60.
Proof.
  split.
  - apply (proj2 (api_loop_retries_fast_only_after_a_failed_report sample_env
                    failing_report (Raise (OtherError "Timeout")) initial_cache start)
             (OtherError "Timeout")).
    reflexivity.
  - rewrite (proj1 (api_loop_retries_fast_only_after_a_failed_report sample_env
                      failing_report (Ok response_three_times) initial_cache start)).
    vm_compute. reflexivity.
Defined.

(** X10: a pass of the scrape variant around its own scrape always sleeps
    300 seconds: the scrape never raises, so the 60-second branch is never
    taken. *)
Theorem scraper_loop_always_sleeps_300 E browser report c w :
  slept (fst (Scraper.update_cache_iteration E
                (Scraper.scrape_departures E browser report) c w)) = 300.
Proof.
  unfold Scraper.update_cache_iteration, Scraper.scrape_departures.
  destruct (scrape_attempts_spec E browser report Scraper.max_retries 0 w)
    as (out & w1 & -> & _).
  destruct out; reflexivity.
Qed.

(** X17: after any number of passes of the API variant from the initial
    cache, [GET /api/departures] answers 200 with [updating] false, and
    [lastUpdated] is null exactly when [departures] is empty. *)
Theorem departures_endpoint_after_the_loop E report fetches n w :
  let c := snd (fst (PtvApiService.update_cache E report fetches n initial_cache w)) in
  fst (get_departures c) = 200
  /\ lookup "updating" (snd (get_departures c)) = Some (VBool false)
  /\ (lookup "lastUpdated" (snd (get_departures c)) = Some VNone
      <-> lookup "departures" (snd (get_departures c)) = Some (VList [])).
Proof.
  intro c. assert (Hs : settled c).
  { subst c.
    pose proof (api_loop_settled E report fetches n initial_cache w) as H.
    destruct (PtvApiService.update_cache E report fetches n initial_cache w)
      as [[cycles c'] w'].
    apply H. split; reflexivity. }
  destruct Hs as [Hu Hl]. unfold get_departures. cbn [fst snd].
  cbn [lookup String.eqb Ascii.eqb Bool.eqb]. rewrite Hu.
  split; [reflexivity|]. split; [reflexivity|].
  destruct (last_updated c) as [t|].
  - destruct Hl as [_ Hne]. split; [discriminate|].
    intro H. inversion H as [Hm]. destruct (departures c); [congruence|discriminate Hm].
  - rewrite Hl. split; reflexivity.
Qed.

(** ** Further properties of the scrape *)

Lemma extract_departure_data_shape E k w d w' :
  Scraper.extract_departure_data E k w = (Ok (Some d), w') -> scraped_departure d.
Proof.
  unfold Scraper.extract_departure_data. unfold_m. intro H.
  do 2 destruct_result H.
  destruct (str_contains "Alamein" a0); [discriminate H|].
  unfold Scraper.get_melbourne_time, PtvApiService.get_melbourne_time in H.
  inversion H; subst. split; [reflexivity|]. split; eexists; [reflexivity|].
  split; [reflexivity|apply strftime_HM_shape].
Qed.

Lemma extract_all_shape E cards : forall w,
  exists out w', Scraper.extract_all E cards w = (Ok out, w') /\ Forall scraped_departure out.
Proof.
  induction cards as [|k cards IH]; intro w; cbn [Scraper.extract_all].
  - exists [], w. split; [reflexivity|constructor].
  - unfold bind, try_catch, ret.
    destruct (Scraper.extract_departure_data E k w) as [[[d|]|e] w1] eqn:Hk;
      destruct (IH w1) as (out & w2 & -> & Hout); eexists _, _;
      (split; [reflexivity|]); try exact Hout.
    constructor; [eapply extract_departure_data_shape, Hk|exact Hout].
Qed.

(** X11: the scrape always returns; the departures it returns have the
    four keys, a string [scheduled_time] and an HH:MM [scraped_at], and come
    in ascending order of [scheduled_time]. *)
Theorem scraped_departures_are_sorted E browser report w :
  exists out w',
    Scraper.scrape_departures E browser report w = (Ok out, w')
    /\ Forall scraped_departure out
    /\ exists times,
         map (lookup "scheduled_time") out = map (fun s => Some (VStr s)) times
         /\ StronglySorted leb_keys times.
Proof.
  unfold Scraper.scrape_departures. generalize 0 as attempt. revert w.
  induction Scraper.max_retries as [|k IH]; intros w attempt;
    cbn [Scraper.scrape_attempts].
  - exists [], w. split; [reflexivity|]. split; [constructor|].
    exists []. split; [reflexivity|constructor].
  - unfold bind, try_catch, lift, ret.
    destruct (browser attempt) as [cards|e]; [|apply IH].
    destruct (extract_all_shape E cards w) as (found & w1 & -> & Hfound).
    destruct found as [|d found]; [apply IH|].
    destruct (sort_by_scheduled_time (d :: found)) as [sorted|e] eqn:Hs; [|apply IH].
    destruct (report sorted w1) as [[u|e] w2]; [|apply IH].
    exists sorted, w2. split; [reflexivity|].
    destruct (sort_by_scheduled_time_spec _ _ Hs) as [Hperm Htimes].
    split; [|exact Htimes].
    eapply Permutation_Forall; [symmetry; exact Hperm|exact Hfound].
Qed.

Lemma scrape_attempts_same_browser E b1 b2 report remaining : forall attempt w,
  (forall i, attempt <= i < attempt + remaining -> b1 i = b2 i) ->
  Scraper.scrape_attempts E b1 report attempt remaining w
  = Scraper.scrape_attempts E b2 report attempt remaining w.
Proof.
  induction remaining as [|k IH]; intros attempt w H; [reflexivity|].
  cbn [Scraper.scrape_attempts]. unfold bind. rewrite <- (H attempt) by lia.
  match goal with
  | |- context [try_catch ?m ?h w] => destruct (try_catch m h w) as [[[s|]|e] w1]
  end; try reflexivity.
  apply IH. intros i Hi. apply H. lia.
Qed.

Lemma scrape_attempts_browser_down E browser report remaining : forall attempt w,
  (forall i, attempt <= i < attempt + remaining -> exists e, browser i = Raise e) ->
  Scraper.scrape_attempts E browser report attempt remaining w = (Ok [], w).
Proof.
  induction remaining as [|k IH]; intros attempt w H; [reflexivity|].
  cbn [Scraper.scrape_attempts]. unfold bind, try_catch, lift, ret.
  destruct (H attempt) as [e ->]; [lia|]. apply IH. intros i Hi. apply H. lia.
Qed.

(** X12: the scrape makes at most three attempts: when the browser fails
    at the attempts 0, 1 and 2 it returns the empty list without a reading
    of the clock, and what the browser would give from the attempt 3 on
    plays no part. *)
Theorem scrape_makes_three_attempts E browser report w :
  ((forall i, i < 3 -> exists e, browser i = Raise e) ->
   Scraper.scrape_departures E browser report w = (Ok [], w))
  /\ (forall other,
         (forall i, i < 3 -> browser i = other i) ->
         Scraper.scrape_departures E browser report w
         = Scraper.scrape_departures E other report w).
Proof.
  unfold Scraper.scrape_departures, Scraper.max_retries. split.
  - intro H. apply scrape_attempts_browser_down. intros i Hi. apply H. lia.
  - intros other H. apply scrape_attempts_same_browser. intros i Hi. apply H. lia.
Qed.

Lemma scrape_makes_three_attempts_witness :
  (forall i, i < 3 -> exists e, browser_down i = Raise e)
  /\ Scraper.scrape_departures sample_env browser_down (fun _ => ret tt) start
     = (Ok [], start)
  /\ Scraper.scrape_departures sample_env browser_down (fun _ => ret tt) start
     = Scraper.scrape_departures sample_env
         (fun _ => Raise (OtherError "WebDriverException")) (fun _ => ret tt) start.
Proof.
  assert (H : forall i, i < 3 -> exists e, browser_down i = Raise e).
  { intros i Hi. unfold browser_down.
    destruct (Nat.ltb_spec i 3); [eauto|lia]. }
  split; [exact H|].
  destruct (scrape_makes_three_attempts sample_env browser_down (fun _ => ret tt) start)
    as [Hdown Hsame].
  split; [exact (Hdown H)|].
  apply Hsame. intros i Hi. unfold browser_down.
  destruct (Nat.ltb_spec i 3); [reflexivity|lia].
Defined.

Lemma scrape_attempts_failed_report E browser report remaining :
  (forall l w0, exists e w1, report l w0 = (Raise e, w1)) ->
  forall attempt w,
    exists w', Scraper.scrape_attempts E browser report attempt remaining w = (Ok [], w').
Proof.
  intro Hrep. induction remaining as [|k IH]; intros attempt w;
    cbn [Scraper.scrape_attempts]; [exists w; reflexivity|].
  unfold bind, try_catch, lift, ret.
  destruct (browser attempt) as [cards|e]; [|apply IH].
  destruct (extract_all_shape E cards w) as (found & w1 & -> & _).
  destruct found as [|d found]; [apply IH|].
  destruct (sort_by_scheduled_time (d :: found)) as [sorted|e]; [|apply IH].
  destruct (Hrep sorted w1) as (e & w2 & ->). apply IH.
Qed.

(** X13: when the report (the printed timetable and the debug file)
    raises each time it is called, the scrape returns the empty list,
    whatever departures it had extracted. *)
Theorem failed_report_discards_the_scrape E browser report w :
  (forall l w0, exists e w1, report l w0 = (Raise e, w1)) ->
  exists w', Scraper.scrape_departures E browser report w = (Ok [], w').
Proof. intro H. apply scrape_attempts_failed_report, H. Qed.

Lemma failed_report_discards_the_scrape_witness :
  (exists d w',
      Scraper.scrape_departures sample_env browser_with_one_card (fun _ => ret tt) start
      = (Ok [d], w'))
  /\ exists w',
       Scraper.scrape_departures sample_env browser_with_one_card failing_report start
       = (Ok [], w').
Proof.
  split; [eexists _, _; vm_compute; reflexivity|].
  apply (failed_report_discards_the_scrape sample_env browser_with_one_card
           failing_report start).
  intros l w0. exists (OtherError "PermissionError"), w0. reflexivity.
Defined.

(** X14: a card whose time or title element is missing, or whose title
    names Alamein, is passed over by the loop over the cards: the other
    cards are extracted as if it were not there, and no clock reading is
    spent on it. *)
Theorem broken_card_is_passed_over E k cards w :
  passed_over k ->
  Scraper.extract_all E (k :: cards) w = Scraper.extract_all E cards w.
Proof.
  intro H. cbn [Scraper.extract_all]. unfold bind, try_catch, ret.
  assert (Hk : exists o, (Scraper.extract_departure_data E k w = (Ok None, w)
                          \/ Scraper.extract_departure_data E k w = (Raise o, w))).
  { unfold Scraper.extract_departure_data. unfold_m.
    destruct H as [[e He]|[[e He]|(title & Ht & Ha)]].
    - rewrite He. eauto.
    - rewrite He.
      destruct (Scraper.find_element_text k "departure-card__info__time__value"); eauto.
    - rewrite Ht, Ha.
      destruct (Scraper.find_element_text k "departure-card__info__time__value");
        [exists AttributeError|]; eauto. }
  destruct Hk as [o [-> | ->]];
    destruct (Scraper.extract_all E cards w) as [[out|e] w1]; reflexivity.
Qed.

Lemma broken_card_is_passed_over_witness :
  passed_over card_without_title
  /\ Scraper.extract_all sample_env
       [card_without_title; card_of "07:05" "Flinders Street" "1"] start
     = Scraper.extract_all sample_env [card_of "07:05" "Flinders Street" "1"] start.
Proof.
  assert (H : passed_over card_without_title)
    by (right; left; eexists; reflexivity).
  split; [exact H|].
  exact (broken_card_is_passed_over sample_env card_without_title
           [card_of "07:05" "Flinders Street" "1"] start H).
Defined.

(** ** Further properties of the sort *)

Lemma leb_keys_refl k : String.leb k k = true.
Proof.
  destruct (String.leb_total k k) as [H|H]; exact H.
Qed.

Lemma insert_by_key_filter k0 k x l :
  filter (fun kd => String.eqb (fst kd) k0) (insert_by_key k x l)
  = if String.eqb k k0 then (k, x) :: filter (fun kd => String.eqb (fst kd) k0) l
    else filter (fun kd => String.eqb (fst kd) k0) l.
Proof.
  induction l as [|[k' y] l IH]; cbn [insert_by_key].
  - cbn [filter fst]. destruct (String.eqb k k0); reflexivity.
  - destruct (String.leb k k') eqn:Hle.
    + cbn [filter fst]. destruct (String.eqb k k0); reflexivity.
    + cbn [filter fst]. rewrite IH.
      destruct (String.eqb k' k0) eqn:E1; [|reflexivity].
      destruct (String.eqb k k0) eqn:E2; [|reflexivity].
      apply String.eqb_eq in E1, E2. subst. rewrite leb_keys_refl in Hle. discriminate.
Qed.

Lemma stable_sort_filter k0 l :
  filter (fun kd => String.eqb (fst kd) k0) (stable_sort l)
  = filter (fun kd => String.eqb (fst kd) k0) l.
Proof.
  induction l as [|[k x] l IH]; [reflexivity|].
  cbn [stable_sort]. rewrite insert_by_key_filter, IH. cbn [filter fst].
  destruct (String.eqb k k0); reflexivity.
Qed.

Lemma filter_keyed s (ks : list (string * dict)) :
  Forall (fun kd => lookup "scheduled_time" (snd kd) = Some (VStr (fst kd))) ks ->
  filter (has_time s) (map snd ks)
  = map snd (filter (fun kd => String.eqb (fst kd) s) ks).
Proof.
  induction 1 as [|[k d] ks Hk _ IH]; [reflexivity|].
  cbn [map filter fst snd]. unfold has_time at 1. cbn [fst snd] in Hk. rewrite Hk.
  destruct (String.eqb k s); cbn [map snd]; rewrite IH; reflexivity.
Qed.

(** X15: the sort is stable: the departures that share a
    [scheduled_time] come out in the order they went in. *)
Theorem sort_keeps_order_of_equal_times l out :
  sort_by_scheduled_time l = Ok out ->
  forall s, filter (has_time s) out = filter (has_time s) l.
Proof.
  unfold sort_by_scheduled_time.
  destruct (with_keys l) as [ks|] eqn:Hk; [|discriminate]. intros H s.
  inversion H; subst. destruct (with_keys_spec _ _ Hk) as [Hm Hf].
  rewrite <- Hm. rewrite !filter_keyed.
  - rewrite stable_sort_filter. reflexivity.
  - exact Hf.
  - eapply Permutation_Forall; [symmetry; apply stable_sort_perm|exact Hf].
Qed.

Lemma sort_keeps_order_of_equal_times_witness :
  exists out,
    sort_by_scheduled_time
      [timed "08:15" "Flinders Street"; timed "07:05" "Camberwell";
       timed "08:15" "Camberwell"] = Ok out
    /\ filter (has_time "08:15") out
       = [timed "08:15" "Flinders Street"; timed "08:15" "Camberwell"].
Proof.
  eexists. split; [vm_compute; reflexivity|].
  apply (sort_keeps_order_of_equal_times
           [timed "08:15" "Flinders Street"; timed "07:05" "Camberwell";
            timed "08:15" "Camberwell"]).
  vm_compute. reflexivity.
Defined.

(** ** Properties of the signed requests *)

Lemma prefix_append n b : String.prefix n (n ++ b) = true.
Proof.
  induction n as [|c n IH]; cbn; [destruct b; reflexivity|].
  destruct (ascii_dec c c); [exact IH|congruence].
Qed.

Lemma str_contains_append n a b : str_contains n (a ++ n ++ b) = true.
Proof.
  induction a as [|c a IH]; cbn [append].
  - destruct (n ++ b) eqn:E; cbn [str_contains]; rewrite <- E, prefix_append; reflexivity.
  - cbn [str_contains]. rewrite IH. destruct (String.prefix n (String c (a ++ n ++ b)));
      reflexivity.
Qed.

Lemma string_app_assoc a b c : (a ++ b) ++ c = a ++ b ++ c.
Proof. induction a as [|x a IH]; cbn [append]; [reflexivity|rewrite IH; reflexivity]. Qed.

Lemma prefix_weaken n : forall x b,
  String.prefix n x = true -> String.prefix n (x ++ b) = true.
Proof.
  induction n as [|a n IH]; intros x b H.
  - destruct (x ++ b); reflexivity.
  - destruct x as [|c x]; [discriminate H|]. cbn [append String.prefix] in *.
    destruct (ascii_dec a c); [apply IH, H|discriminate H].
Qed.

Lemma str_contains_weaken n b : forall a,
  str_contains n a = true -> str_contains n (a ++ b) = true.
Proof.
  induction a as [|c a IH]; intro H.
  - cbn [str_contains] in H.
    destruct (String.prefix n "") eqn:Hp; [|discriminate H].
    apply (prefix_weaken n "" b) in Hp. cbn [append] in *.
    destruct b; cbn [str_contains]; rewrite Hp; reflexivity.
  - cbn [append str_contains] in *.
    destruct (String.prefix n (String c a)) eqn:Hp.
    + apply (prefix_weaken n (String c a) b) in Hp. cbn [append] in Hp.
      rewrite Hp. reflexivity.
    + rewrite (IH H). destruct (String.prefix n (String c (a ++ b))); reflexivity.
Qed.

Lemma upper_hex_digit n : n < 16 -> is_upper_hex (PtvApiService.upper_char (hex_digit n)) = true.
Proof.
  intro H. do 16 (destruct n as [|n]; [reflexivity|]). lia.
Qed.

Lemma signature_shape digest :
  string_forall is_upper_hex (PtvApiService.upper (PtvApiService.hexdigest digest)) = true
  /\ String.length (PtvApiService.upper (PtvApiService.hexdigest digest))
     = 2 * List.length digest.
Proof.
  induction digest as [|b digest [IH1 IH2]]; [split; reflexivity|].
  cbn [PtvApiService.hexdigest PtvApiService.upper string_forall String.length List.length].
  pose proof (Byte.to_nat_bounded b) as Hb.
  rewrite !upper_hex_digit, IH1, IH2.
  - split; [reflexivity|lia].
  - apply Nat.mod_upper_bound. lia.
  - apply Nat.Div0.div_lt_upper_bound. lia.
Qed.

(** X16: the URL of a signed request is the base URL, the endpoint with
    [devid] appended (after an ampersand when the endpoint has a query,
    after a question mark otherwise, so that the result always has a
    query), and a signature computed over exactly that path and query; the
    signature is made of the digits 0-9 and A-F only; the endpoint of the
    departures has a query and the endpoint of the health probe has none. *)
Theorem signed_url_shape DEV_ID API_KEY hmac_sha1 :
  (forall endpoint,
      exists raw,
        raw = (endpoint ++ (if str_contains "?" endpoint then "&" else "?"))
                ++ "devid=" ++ DEV_ID
        /\ PtvApiService.get_ptv_url DEV_ID API_KEY hmac_sha1 endpoint
           = PtvApiService.PTV_BASE_URL ++ raw ++ "&signature="
               ++ PtvApiService.upper
                    (PtvApiService.hexdigest (hmac_sha1 API_KEY raw))
        /\ str_contains "?" raw = true)
  /\ (forall endpoint,
         string_forall is_upper_hex
           (PtvApiService.generate_signature DEV_ID API_KEY hmac_sha1 endpoint) = true)
  /\ (forall stop,
         str_contains "?" (PtvApiService.departures_endpoint stop) = true)
  /\ str_contains "?" PtvApiService.version_endpoint = false.
Proof.
  split; [|split; [|split]].
  - intro endpoint. eexists. split; [reflexivity|]. split; [reflexivity|].
    destruct (str_contains "?" endpoint) eqn:Hq.
    + rewrite string_app_assoc. apply str_contains_weaken, Hq.
    + rewrite string_app_assoc.
      apply (str_contains_append "?" endpoint ("devid=" ++ DEV_ID)).
  - intro endpoint. apply signature_shape.
  - intro stop. unfold PtvApiService.departures_endpoint.
    rewrite <- !string_app_assoc.
    apply (str_contains_append "?" _ "expand=All&max_results=100").
  - reflexivity.
Qed.
